(** * The etcd physical backend: key-value storage and the queue lock

    A shallow embedding of the etcd backend of the [physical] package:
    the path mapper ([nodePath], [nodePathDir], [nodePathLock]), the
    key-value operations ([Put], [Get], [Delete], [List]) and the lock
    engine ([Lock], [Unlock], [isHeld], [watchForKeyRemoval]).

    Go strings are byte sequences: they are modelled as [string] (a list of
    8-bit [ascii]); a [[]byte] is a [list Byte.byte].  The etcd client is an
    interface of this development ([Client]): every call the code makes is
    answered by the client and recorded in a call log. *)

From Stdlib Require Import String Ascii List Bool Arith NArith ZArith Lia.
From Stdlib.Strings Require Import Byte.
Import ListNotations.
Local Open Scope string_scope.

Set Implicit Arguments.

(** ** Strings: the functions of Go's [strings] package that the backend uses *)

Module Strings.

(** [strings.HasPrefix(s, prefix)]. *)
Definition HasPrefix (s p : string) : bool := String.prefix p s.

(** [s[n:]] for [n <= len(s)]. *)
Fixpoint drop (n : nat) (s : string) : string :=
  match n, s with
  | O, _ => s
  | S n', String _ s' => drop n' s'
  | S _, EmptyString => EmptyString
  end.

(** [strings.TrimPrefix(s, prefix)]: [s] without the leading [prefix], or
    [s] itself when it does not start with [prefix]. *)
Definition TrimPrefix (s p : string) : string :=
  if HasPrefix s p then drop (String.length p) s else s.

(** [strings.HasSuffix(s, "/")]. *)
Fixpoint ends_with_slash (s : string) : bool :=
  match s with
  | EmptyString => false
  | String c EmptyString => Ascii.eqb c "/"
  | String _ s' => ends_with_slash s'
  end.

(** [strings.Join(elems, sep)]. *)
Fixpoint Join (elems : list string) (sep : string) : string :=
  match elems with
  | [] => ""
  | [e] => e
  | e :: rest => e ++ sep ++ Join rest sep
  end.

End Strings.

(** ** Paths: [path/filepath] on a Unix system (separator ['/'], no volume) *)

Module Filepath.

(** The components of a path between its separators:
    [split "a//b" = ["a"; ""; "b"]]. *)
Fixpoint split (s : string) : list string :=
  match s with
  | EmptyString => [EmptyString]
  | String c s' =>
      if Ascii.eqb c "/" then EmptyString :: split s'
      else match split s' with
           | [] => [String c EmptyString]
           | h :: t => String c h :: t
           end
  end.

Definition rooted (path : string) : bool :=
  match path with
  | String c _ => Ascii.eqb c "/"
  | EmptyString => false
  end.

(** One step of [Clean]: the output elements are kept in reverse order in
    [out].  Empty elements and ["."] are dropped; [".."] removes the last
    element when there is one that is not itself [".."], is dropped at the
    root, and is kept otherwise. *)
Definition clean_step (isRooted : bool) (out : list string) (e : string)
  : list string :=
  if String.eqb e "" then out
  else if String.eqb e "." then out
  else if String.eqb e ".." then
    match out with
    | top :: out' =>
        if String.eqb top ".." then e :: out else out'
    | [] => if isRooted then out else [e]
    end
  else e :: out.

(** [filepath.Clean(path)]: the shortest path name equivalent to [path] by
    purely lexical processing. *)
Definition Clean (path : string) : string :=
  if String.eqb path "" then "."
  else
    let r := rooted path in
    let out := rev (fold_left (clean_step r) (split path) []) in
    let body := Strings.Join out "/" in
    if r then String "/" body
    else if String.eqb body "" then "." else body.

(** [filepath.Join(elem...)]: the elements from the first non-empty one on,
    joined by the separator and cleaned; [""] when every element is empty. *)
Fixpoint Join (elem : list string) : string :=
  match elem with
  | [] => ""
  | e :: rest =>
      if String.eqb e "" then Join rest
      else Clean (Strings.Join elem "/")
  end.

(** The prefix of [s] up to and including its last separator. *)
Fixpoint upto_last_slash (s : string) : string :=
  match s with
  | EmptyString => EmptyString
  | String c s' =>
      match upto_last_slash s' with
      | EmptyString =>
          if Ascii.eqb c "/" then String c EmptyString else EmptyString
      | r => String c r
      end
  end.

(** The part of [s] after its last separator ([s] itself without one). *)
Fixpoint after_last_slash (s : string) : string :=
  match s with
  | EmptyString => EmptyString
  | String c s' =>
      if existsb (Ascii.eqb "/") (list_ascii_of_string s')
      then after_last_slash s'
      else if Ascii.eqb c "/" then s' else s
  end.

(** [s] without its trailing separators. *)
Fixpoint strip_trailing_slashes (s : string) : string :=
  match s with
  | EmptyString => EmptyString
  | String c s' =>
      match strip_trailing_slashes s' with
      | EmptyString =>
          if Ascii.eqb c "/" then EmptyString else String c EmptyString
      | r => String c r
      end
  end.

(** [filepath.Dir(path)]: all but the last element of [path], cleaned. *)
Definition Dir (path : string) : string := Clean (upto_last_slash path).

(** [filepath.Base(path)]: the last element of [path]. *)
Definition Base (path : string) : string :=
  if String.eqb path "" then "."
  else
    let p := after_last_slash (strip_trailing_slashes path) in
    if String.eqb p "" then "/" else p.

End Filepath.

(** ** Base64: [encoding/base64]'s [StdEncoding] (RFC 4648, with padding) *)

Module Base64.

Definition encodeStd : string :=
  "ABCDEFGHIJKLMNOPQRSTUVWXYZabcdefghijklmnopqrstuvwxyz0123456789+/".

Definition StdPadding : ascii := "="%char.

(** [enc.encode[n]]: the character of the 6-bit value [n]. *)
Definition encodeChar (n : N) : ascii :=
  nth (N.to_nat n) (list_ascii_of_string encodeStd) "A"%char.

Fixpoint index_from (c : ascii) (l : list ascii) (i : N) : option N :=
  match l with
  | [] => None
  | x :: l' => if Ascii.eqb x c then Some i else index_from c l' (N.succ i)
  end.

(** [enc.decodeMap[c]]: the 6-bit value of [c], [None] (0xFF in the
    table) for a character outside the alphabet. *)
Definition decodeChar (c : ascii) : option N :=
  index_from c (list_ascii_of_string encodeStd) 0%N.

(** [byte(n)]: the low 8 bits of [n]. *)
Definition byte_of_N (n : N) : byte :=
  match Byte.of_N (n mod 256) with
  | Some b => b
  | None => x00
  end.

(** The 24-bit group [b0<<16 | b1<<8 | b2]. *)
Definition group24 (b0 b1 b2 : byte) : N :=
  (Byte.to_N b0 * 65536 + Byte.to_N b1 * 256 + Byte.to_N b2)%N.

(** [val>>k & 0x3F]. *)
Definition sextet (val : N) (k : N) : N := ((val / 2 ^ k) mod 64)%N.

(** [EncodeToString] on the byte list: full groups of three bytes give four
    characters; a remainder of one or two bytes is padded with ['=']. *)
Fixpoint encode (src : list byte) : list ascii :=
  match src with
  | [] => []
  | [b0] =>
      let val := group24 b0 x00 x00 in
      [encodeChar (sextet val 18); encodeChar (sextet val 12);
       StdPadding; StdPadding]
  | [b0; b1] =>
      let val := group24 b0 b1 x00 in
      [encodeChar (sextet val 18); encodeChar (sextet val 12);
       encodeChar (sextet val 6); StdPadding]
  | b0 :: b1 :: b2 :: rest =>
      let val := group24 b0 b1 b2 in
      encodeChar (sextet val 18) :: encodeChar (sextet val 12) ::
      encodeChar (sextet val 6) :: encodeChar (sextet val 0) ::
      encode rest
  end.

Definition EncodeToString (src : list byte) : string :=
  string_of_list_ascii (encode src).

(** The 24-bit value [d0<<18 | d1<<12 | d2<<6 | d3] of four sextets. *)
Definition quantum (d0 d1 d2 d3 : N) : N :=
  (d0 * 262144 + d1 * 4096 + d2 * 64 + d3)%N.

(** The decoder on the input without line breaks, a quantum of four
    characters at a time.  Padding is accepted only in the last quantum
    (["xx=="] or ["xxx="]); anything else outside the alphabet, and an
    input that ends inside a quantum, is corrupt ([None]). *)
Fixpoint decode (src : list ascii) : option (list byte) :=
  match src with
  | [] => Some []
  | c0 :: c1 :: c2 :: c3 :: rest =>
      match decodeChar c0, decodeChar c1 with
      | Some d0, Some d1 =>
          match decodeChar c2, decodeChar c3 with
          | Some d2, Some d3 =>
              let val := quantum d0 d1 d2 d3 in
              match decode rest with
              | Some out =>
                  Some (byte_of_N (val / 65536) :: byte_of_N (val / 256)
                        :: byte_of_N val :: out)
              | None => None
              end
          | Some d2, None =>
              let val := quantum d0 d1 d2 0 in
              match rest with
              | [] =>
                  if Ascii.eqb c3 StdPadding
                  then Some [byte_of_N (val / 65536); byte_of_N (val / 256)]
                  else None
              | _ :: _ => None
              end
          | None, _ =>
              let val := quantum d0 d1 0 0 in
              match rest with
              | [] =>
                  if Ascii.eqb c2 StdPadding && Ascii.eqb c3 StdPadding
                  then Some [byte_of_N (val / 65536)]
                  else None
              | _ :: _ => None
              end
          end
      | _, _ => None
      end
  | _ => None
  end.

(** [removeNewlinesMapper]: carriage returns and line feeds are dropped
    before decoding. *)
Definition isNewline (c : ascii) : bool :=
  Ascii.eqb c "010"%char || Ascii.eqb c "013"%char.

Definition removeNewlines (l : list ascii) : list ascii :=
  filter (fun c => negb (isNewline c)) l.

(** [DecodeString]: the decoded bytes, or [None] for
    [base64.CorruptInputError]. *)
Definition DecodeString (s : string) : option (list byte) :=
  decode (removeNewlines (list_ascii_of_string s)).

End Base64.

(** ** The etcd client library: values exchanged with the backend *)

Module etcd.

(** [etcd.Node]. *)
#[local] Unset Elimination Schemes.
Inductive Node : Type :=
  mkNode { Key : string; Value : string; Dir : bool; Nodes : list Node }.
#[local] Set Elimination Schemes.

(** [etcd.Response]. *)
Record Response : Type :=
  mkResponse { Action : string; RNode : Node; EtcdIndex : Z }.

End etcd.

(** Go's [error] values that reach the backend.  A nil [error] is [None] of
    [option error]. *)
Inductive error : Type :=
| EtcdError (ErrorCode : Z) (Message : string)  (* a [*etcd.EtcdError] *)
| ErrorString (text : string)                   (* made by [errors.New] *)
| CorruptInputError.                            (* of [encoding/base64] *)

Definition EtcdSyncClusterError : error :=
  ErrorString "client setup failed: unable to sync etcd cluster".
Definition EtcdSemaphoreKeysEmptyError : error :=
  ErrorString "lock queue is empty".
Definition EtcdLockHeldError : error := ErrorString "lock already held".
Definition EtcdLockNotHeldError : error := ErrorString "lock not held".
Definition EtcdSemaphoreKeyRemovedError : error :=
  ErrorString "semaphore key removed before lock aquisition".

Definition EtcdNodeFilePrefix : string := ".".
Definition EtcdNodeLockPrefix : string := "_".
Definition EtcdLockTTL : Z := 15.
Definition EtcdWatchRetryInterval : Z := 1. (* seconds *)
Definition EtcdWatchRetryMax : Z := 5.

(** The type assertion of [err] to a pointer to [etcd.EtcdError]. *)
Definition isEtcdError (err : error) : bool :=
  match err with
  | EtcdError _ _ => true
  | _ => false
  end.

(** [errorIsMissingKey]: an etcd error whose code is 100. *)
Definition errorIsMissingKey (err : error) : bool :=
  match err with
  | EtcdError code _ => Z.eqb code 100
  | _ => false
  end.

(** [uint64] addition of one. *)
Definition uint64_succ (n : Z) : Z := (n + 1) mod 2 ^ 64.

(** ** The client interface and the effects of the backend *)

(** The calls the backend makes on [*etcd.Client].  [CallWatch]'s last
    field tells whether a stop channel was passed ([nil] otherwise). *)
Inductive Call : Type :=
| CallSet (key value : string) (ttl : Z)
| CallGet (key : string) (sort recursive : bool)
| CallDelete (key : string) (recursive : bool)
| CallCreateInOrder (dir value : string) (ttl : Z)
| CallWatch (prefix : string) (waitIndex : Z) (recursive stoppable : bool).

(** What an observer sees of a run: client calls, pacing sleeps (seconds)
    and the measurements reported to the metrics sink. *)
Inductive Event : Type :=
| Called (c : Call)
| Slept (seconds : Z)
| Measured (name : list string).

Definition Reply : Type := (etcd.Response + error)%type.

(** A client answers every call from its own state [W] (the store, the
    network, the other processes). *)
Class Client (W : Type) : Type :=
  perform : Call -> W -> Reply * W.

Record State (W : Type) : Type :=
  mkState { world : W; trace : list Event }.

Definition M (W A : Type) : Type := State W -> A * State W.

Definition ret {W A} (a : A) : M W A := fun s => (a, s).

Definition bind {W A B} (m : M W A) (k : A -> M W B) : M W B :=
  fun s => let (a, s') := m s in k a s'.

Declare Scope etcd_scope.
Delimit Scope etcd_scope with etcd.
Notation "x <- m ;; k" := (bind m (fun x => k))
  (at level 61, m at next level, right associativity) : etcd_scope.
Notation "m ;;; k" := (bind m (fun _ => k))
  (at level 61, right associativity) : etcd_scope.
Local Open Scope etcd_scope.

Definition emit {W} (e : Event) : M W unit :=
  fun s => (tt, mkState (world s) (trace s ++ [e])).

(** A client call: recorded, then answered by the client. *)
Definition call {W} `{Client W} (c : Call) : M W Reply :=
  fun s =>
    let (r, w') := perform c (world s) in
    (r, mkState w' (trace s ++ [Called c])).

(** [time.Sleep]. *)
Definition Sleep {W} (seconds : Z) : M W unit := emit (Slept seconds).

(** [defer metrics.MeasureSince(name, time.Now())]: the measurement is
    reported when the function returns; the duration is not modelled. *)
Definition measured {W A} (name : list string) (m : M W A) : M W A :=
  a <- m ;; emit (Measured name) ;;; ret a.

(** A Go call either returns or panics. *)
Inductive outcome (A : Type) : Type :=
| Return (a : A)
| Panic (msg : string).
Arguments Panic {A} msg.

(** ** The backend *)

Record Entry : Type := mkEntry { Key : string; Value : list byte }.

Record EtcdBackend : Type := mkEtcdBackend { path : string }.

(** [nodePath]: the etcd file path of a key. *)
Definition nodePath (b : EtcdBackend) (key : string) : string :=
  Filepath.Join [path b; Filepath.Dir key;
                 EtcdNodeFilePrefix ++ Filepath.Base key].

(** [nodePathDir]: the etcd directory path of a key. *)
Definition nodePathDir (b : EtcdBackend) (key : string) : string :=
  Filepath.Join [path b; key] ++ "/".

(** [nodePathLock]: the etcd directory path of the semaphore of a key. *)
Definition nodePathLock (b : EtcdBackend) (key : string) : string :=
  Filepath.Join [path b; Filepath.Dir key;
                 EtcdNodeLockPrefix ++ Filepath.Base key ++ "/"].

Section Backend.

Context {W : Type} `{Client W}.

(** [Put]: insert or update an entry. *)
Definition Put (c : EtcdBackend) (entry : Entry) : M W (option error) :=
  measured ["etcd"; "put"] (
    let value := Base64.EncodeToString (Value entry) in
    r <- call (CallSet (nodePath c (Key entry)) value 0) ;;
    match r with
    | inl _ => ret None
    | inr err => ret (Some err)
    end).

(** [Get]: fetch an entry. *)
Definition Get (c : EtcdBackend) (key : string)
  : M W (option Entry * option error) :=
  measured ["etcd"; "get"] (
    r <- call (CallGet (nodePath c key) false false) ;;
    match r with
    | inr err =>
        if errorIsMissingKey err then ret (None, None)
        else ret (None, Some err)
    | inl response =>
        match Base64.DecodeString (etcd.Value (etcd.RNode response)) with
        | None => ret (None, Some CorruptInputError)
        | Some value => ret (Some (mkEntry key value), None)
        end
    end).

(** [Delete]: permanently delete an entry. *)
Definition Delete (c : EtcdBackend) (key : string) : M W (option error) :=
  measured ["etcd"; "delete"] (
    r <- call (CallDelete (nodePath c key) false) ;;
    match r with
    | inr err =>
        if negb (errorIsMissingKey err) then ret (Some err) else ret None
    | inl _ => ret None
    end).

(** The body of [List]'s loop for one node: [out[i]], or [None] when the
    slice expression [name[1:]] is out of range. *)
Definition listName (path : string) (node : etcd.Node) : option string :=
  let name := Strings.TrimPrefix (etcd.Key node) path in
  if etcd.Dir node then Some (name ++ "/")
  else match name with
       | EmptyString => None
       | String _ rest => Some rest
       end.

Fixpoint listNames (path : string) (nodes : list etcd.Node)
  : option (list string) :=
  match nodes with
  | [] => Some []
  | node :: nodes' =>
      match listName path node with
      | None => None
      | Some n =>
          match listNames path nodes' with
          | None => None
          | Some out => Some (n :: out)
          end
      end
  end.

(** [List]: the keys under a prefix, up to the next prefix. *)
Definition List (c : EtcdBackend) (prefix : string)
  : M W (outcome (option (list string) * option error)) :=
  measured ["etcd"; "list"] (
    let path := nodePathDir c prefix in
    r <- call (CallGet path true false) ;;
    match r with
    | inr err =>
        if errorIsMissingKey err then ret (Return (Some [], None))
        else ret (Return (None, Some err))
    | inl response =>
        match listNames path (etcd.Nodes (etcd.RNode response)) with
        | None => ret (Panic "slice bounds out of range")
        | Some out => ret (Return (Some out, None))
        end
    end).

End Backend.

(** ** The lock engine *)

(** [EtcdLock].  The client is the world of the monad; the local mutex
    serialises the calls on one handle, which the sequential model does by
    construction. *)
Record EtcdLock : Type :=
  mkEtcdLock { value : string; semaphoreDirKey : string;
               semaphoreKey : string }.

Definition setSemaphoreKey (c : EtcdLock) (k : string) : EtcdLock :=
  mkEtcdLock (value c) (semaphoreDirKey c) k.

(** The channel [Lock] returns together with the goroutine that will close
    it: [go c.watchForKeyRemoval(watchKey, watchIndex, done)]. *)
Record LostChannel : Type :=
  mkLostChannel { watchKey : string; watchIndex : Z }.

(** [LockWith]: a handle for the given key. *)
Definition LockWith (c : EtcdBackend) (key value : string)
  : EtcdLock * option error :=
  (mkEtcdLock value (nodePathLock c key) "", None).

(** [response.Action == "delete" || response.Action == "expire"]. *)
Definition isRemoval (action : string) : bool :=
  String.eqb action "delete" || String.eqb action "expire".

Section LockEngine.

Context {W : Type} `{Client W}.

(** [addSemaphoreKey]: acquire a new ordered semaphore key. *)
Definition addSemaphoreKey (c : EtcdLock)
  : M W (string * Z * option error) :=
  r <- call (CallCreateInOrder (semaphoreDirKey c) (value c) EtcdLockTTL) ;;
  match r with
  | inr err => ret ("", 0%Z, Some err)
  | inl response =>
      ret (etcd.Key (etcd.RNode response), etcd.EtcdIndex response, None)
  end.

(** [getSemaphoreKey]: the key and the value of the holder of the lock. *)
Definition getSemaphoreKey (c : EtcdLock)
  : M W (string * string * Z * option error) :=
  r <- call (CallGet (semaphoreDirKey c) true false) ;;
  match r with
  | inr err => ret ("", "", 0%Z, Some err)
  | inl response =>
      match etcd.Nodes (etcd.RNode response) with
      | [] => ret ("", "", etcd.EtcdIndex response, None)
      | first :: _ =>
          ret (etcd.Key first, etcd.Value first,
               etcd.EtcdIndex response, None)
      end
  end.

(** [isHeld]: are we the current holder of the lock. *)
Definition isHeld (c : EtcdLock) : M W (bool * option error) :=
  if String.eqb (semaphoreKey c) "" then ret (false, None)
  else
    r <- getSemaphoreKey c ;;
    match r with
    | (_, _, _, Some err) => ret (false, Some err)
    | (currentSemaphoreKey, _, _, None) =>
        ret (String.eqb (semaphoreKey c) currentSemaphoreKey, None)
    end.

(** [assertHeld]. *)
Definition assertHeld (c : EtcdLock) : M W (option error) :=
  r <- isHeld c ;;
  match r with
  | (_, Some err) => ret (Some err)
  | (held, None) =>
      if negb held then ret (Some EtcdLockNotHeldError) else ret None
  end.

(** [assertNotHeld]. *)
Definition assertNotHeld (c : EtcdLock) : M W (option error) :=
  r <- isHeld c ;;
  match r with
  | (_, Some err) => ret (Some err)
  | (held, None) =>
      if held then ret (Some EtcdLockHeldError) else ret None
  end.

(** The loop of [watchForKeyRemoval].  Every iteration makes one watch
    call; [fuel] bounds the iterations, and the result tells whether the
    loop was left ([true]) or is still running when the fuel is spent. *)
Fixpoint watchLoop (fuel : nat) (key : string) (etcdIndex retries : Z)
  : M W bool :=
  match fuel with
  | O => ret false
  | S fuel' =>
      r <- call (CallWatch key etcdIndex false false) ;;
      match r with
      | inr err =>
          if errorIsMissingKey err then ret true
          else
            let retries := (retries - 1)%Z in
            if Z.eqb retries 0 then ret true
            else
              Sleep EtcdWatchRetryInterval ;;;
              watchLoop fuel' key etcdIndex retries
      | inl response =>
          if String.eqb (etcd.Key (etcd.RNode response)) key
             && isRemoval (etcd.Action response)
          then ret true
          else watchLoop fuel' key (uint64_succ (etcd.EtcdIndex response))
                         retries
      end
  end.

(** [watchForKeyRemoval]: watch one key from the given index; when the
    loop is left the channel is closed (the result is then [true]). *)
Definition watchForKeyRemoval (fuel : nat) (key : string) (etcdIndex : Z)
  : M W bool :=
  watchLoop fuel key etcdIndex EtcdWatchRetryMax.

(** The waiting loop of [Lock]: [None] while the call is still blocked
    when the fuel is spent, else the values [Lock] returns. *)
Fixpoint lockLoop (fuel : nat) (c : EtcdLock)
         (semaphoreKey' currentSemaphoreKey : string) (currentEtcdIndex : Z)
  : M W (option (option LostChannel * option error)) :=
  if String.eqb semaphoreKey' currentSemaphoreKey then
    ret (Some (Some (mkLostChannel (semaphoreKey c)
                                   (uint64_succ currentEtcdIndex)), None))
  else
    match fuel with
    | O => ret None
    | S fuel' =>
        r <- call (CallWatch (semaphoreDirKey c)
                             (uint64_succ currentEtcdIndex) true true) ;;
        match r with
        | inr err =>
            if negb (isEtcdError err) then
              d <- call (CallDelete (semaphoreKey c) false) ;;
              match d with
              | inr err' => ret (Some (None, Some err'))
              | inl _ => ret (Some (None, None))
              end
            else ret (Some (None, Some err))
        | inl response =>
            if String.eqb (etcd.Key (etcd.RNode response)) semaphoreKey'
               && isRemoval (etcd.Action response)
            then ret (Some (None, Some EtcdSemaphoreKeyRemovedError))
            else
              g <- getSemaphoreKey c ;;
              match g with
              | (_, _, _, Some err) => ret (Some (None, Some err))
              | (current, _, index, None) =>
                  lockLoop fuel' c semaphoreKey' current index
              end
        end
    end.

(** [Lock]: enqueue a semaphore key and wait until it is the first of the
    queue.  The handle is returned with its [semaphoreKey] as the call
    leaves it. *)
Definition Lock (fuel : nat) (c : EtcdLock)
  : M W (option (option LostChannel * option error) * EtcdLock) :=
  e <- assertNotHeld c ;;
  match e with
  | Some err => ret (Some (None, Some err), c)
  | None =>
      a <- addSemaphoreKey c ;;
      match a with
      | (_, _, Some err) => ret (Some (None, Some err), c)
      | (semaphoreKey', _, None) =>
          let c := setSemaphoreKey c semaphoreKey' in
          g <- getSemaphoreKey c ;;
          match g with
          | (_, _, _, Some err) => ret (Some (None, Some err), c)
          | (currentSemaphoreKey, _, currentEtcdIndex, None) =>
              r <- lockLoop fuel c semaphoreKey' currentSemaphoreKey
                            currentEtcdIndex ;;
              ret (r, c)
          end
      end
  end.

(** [Unlock]: release the lock by deleting our semaphore key. *)
Definition Unlock (c : EtcdLock) : M W (option error) :=
  e <- assertHeld c ;;
  match e with
  | Some err => ret (Some err)
  | None =>
      d <- call (CallDelete (semaphoreKey c) false) ;;
      match d with
      | inr err => ret (Some err)
      | inl _ => ret None
      end
  end.

(** [Value]: is the lock held by anyone, and the holder's value. *)
Definition LockValue (c : EtcdLock) : M W (bool * string * option error) :=
  g <- getSemaphoreKey c ;;
  match g with
  | (_, _, _, Some err) => ret (false, "", Some err)
  | (semaphoreKey', semaphoreValue, _, None) =>
      if String.eqb semaphoreKey' "" then ret (false, "", None)
      else ret (true, semaphoreValue, None)
  end.

End LockEngine.

(** ** Two clients to run the code on *)

(** A scripted client answers the calls with the replies of a script, in
    order: the store, the network and the other processes are whatever
    produced those replies.  After the script the connection is down. *)
Record Script : Type := mkScript { replies : list Reply }.

#[export] Instance scripted : Client Script :=
  fun _ w =>
    match replies w with
    | r :: rest => (r, mkScript rest)
    | [] => (inr (ErrorString "connection refused"), w)
    end.

(** A single-process store: a sorted table from file keys to values and the
    etcd index.  Directories exist as long as a file lies below them;
    entries whose name starts with ["_"] are hidden from listings. *)
Module Store.

Record t : Type := mk { data : list (string * string); index : Z }.

Definition empty : t := mk [] 0.

Fixpoint insert (k v : string) (l : list (string * string))
  : list (string * string) :=
  match l with
  | [] => [(k, v)]
  | (k', v') :: l' =>
      match String.compare k k' with
      | Lt => (k, v) :: l
      | Eq => (k, v) :: l'
      | Gt => (k', v') :: insert k v l'
      end
  end.

Fixpoint lookup (k : string) (l : list (string * string)) : option string :=
  match l with
  | [] => None
  | (k', v) :: l' => if String.eqb k k' then Some v else lookup k l'
  end.

Definition remove (k : string) (l : list (string * string))
  : list (string * string) :=
  filter (fun kv => negb (String.eqb k (fst kv))) l.

(** The first element of a relative path. *)
Definition firstElem (rest : string) : string :=
  hd "" (Filepath.split rest).

Definition isFile (rest : string) : bool :=
  String.eqb (firstElem rest) rest.

(** The children of directory [d] (no trailing separator), in key order. *)
Fixpoint children (d : string) (l : list (string * string))
         (seen : string) : list etcd.Node :=
  match l with
  | [] => []
  | (k, v) :: l' =>
      if Strings.HasPrefix k (d ++ "/") then
        let rest := Strings.drop (String.length (d ++ "/")) k in
        let name := firstElem rest in
        if Strings.HasPrefix name "_" || String.eqb name seen
        then children d l' seen
        else
          (if isFile rest then etcd.mkNode k v false []
           else etcd.mkNode (d ++ "/" ++ name) "" true [])
          :: children d l' (if isFile rest then seen else name)
      else children d l' seen
  end.

Definition hasBelow (d : string) (l : list (string * string)) : bool :=
  existsb (fun kv => Strings.HasPrefix (fst kv) (d ++ "/")) l.

Definition keyNotFound (k : string) : error := EtcdError 100 "Key not found".

(** The name of an in-order key: the index in 20 decimal digits. *)
Fixpoint digits (n : nat) (i : N) : string :=
  match n with
  | O => ""
  | S n' =>
      digits n' (i / 10)
      ++ String (ascii_of_N (48 + i mod 10)) EmptyString
  end.

Definition step (c : Call) (s : t) : Reply * t :=
  match c with
  | CallSet k v _ =>
      let i := (index s + 1)%Z in
      (inl (etcd.mkResponse "set" (etcd.mkNode k v false []) i),
       mk (insert k v (data s)) i)
  | CallGet k _ _ =>
      let d := Filepath.strip_trailing_slashes k in
      match lookup d (data s) with
      | Some v =>
          (inl (etcd.mkResponse "get" (etcd.mkNode d v false []) (index s)),
           s)
      | None =>
          if hasBelow d (data s) then
            (inl (etcd.mkResponse "get"
                    (etcd.mkNode d "" true (children d (data s) ""))
                    (index s)), s)
          else (inr (keyNotFound d), s)
      end
  | CallDelete k _ =>
      match lookup k (data s) with
      | Some v =>
          let i := (index s + 1)%Z in
          (inl (etcd.mkResponse "delete" (etcd.mkNode k "" false []) i),
           mk (remove k (data s)) i)
      | None => (inr (keyNotFound k), s)
      end
  | CallCreateInOrder d v _ =>
      let i := (index s + 1)%Z in
      let k := Filepath.strip_trailing_slashes d ++ "/"
               ++ digits 20 (Z.to_N i) in
      (inl (etcd.mkResponse "create" (etcd.mkNode k v false []) i),
       mk (insert k v (data s)) i)
  | CallWatch _ _ _ stoppable =>
      (inr (ErrorString "Watch stopped by the user via stop channel"), s)
  end.

End Store.

#[export] Instance store_client : Client Store.t := Store.step.

(** Running a computation from a world with an empty trace. *)
Definition run {W A} (m : M W A) (w : W) : A * State W := m (mkState w []).

Definition calls {W} (s : State W) : list Call :=
  flat_map (fun e => match e with Called c => [c] | _ => [] end) (trace s).

(** ** Descriptions of paths *)

(** [s] has no separator. *)
Definition no_slash (s : string) : bool :=
  negb (existsb (Ascii.eqb "/") (list_ascii_of_string s)).

(** An element that [Clean] keeps as it is. *)
Definition plain (e : string) : Prop :=
  e <> "" /\ e <> "." /\ e <> ".." /\ no_slash e = true.

(** ** Descriptions of runs *)

(** The error of a reply: [nil] for a response. *)
Definition replyError (r : Reply) : option error :=
  match r with
  | inl _ => None
  | inr err => Some err
  end.

(** What is seen of [k + 1] watch calls on [key] from [idx] that all fail:
    the calls, with a pacing sleep between one and the next. *)
Fixpoint failedWatches (key : string) (idx : Z) (k : nat) : list Event :=
  match k with
  | O => [Called (CallWatch key idx false false)]
  | S k' =>
      Called (CallWatch key idx false false)
      :: Slept EtcdWatchRetryInterval :: failedWatches key idx k'
  end.

(** [Get] as a function of the store's reply. *)
Definition Get_result (key : string) (r : Reply)
  : option Entry * option error :=
  match r with
  | inr err => if errorIsMissingKey err then (None, None) else (None, Some err)
  | inl response =>
      match Base64.DecodeString (etcd.Value (etcd.RNode response)) with
      | None => (None, Some CorruptInputError)
      | Some value => (Some (mkEntry key value), None)
      end
  end.

(** ** Concrete runs *)

Module Demo.

Definition vault : EtcdBackend := mkEtcdBackend "/vault".

Definition queue : string := "/vault/_foo".
Definition entry1 : string := "/vault/_foo/00000000000000000001".
Definition entry2 : string := "/vault/_foo/00000000000000000002".

(** The queue with two entries: another holder's, then ours. *)
Definition twoWaiters : etcd.Response :=
  etcd.mkResponse "get"
    (etcd.mkNode queue "" true
       [etcd.mkNode entry1 "other" false [];
        etcd.mkNode entry2 "me" false []]) 7.

(** The queue with one entry. *)
Definition oneHolder : etcd.Response :=
  etcd.mkResponse "get"
    (etcd.mkNode queue "" true [etcd.mkNode entry1 "me" false []]) 7.

Definition created2 : etcd.Response :=
  etcd.mkResponse "create" (etcd.mkNode entry2 "me" false []) 7.

Definition deleted (key : string) : etcd.Response :=
  etcd.mkResponse "delete" (etcd.mkNode key "" false []) 8.

(** What go-etcd's watch returns when its stop channel is closed. *)
Definition ErrWatchStoppedByUser : error :=
  ErrorString "Watch stopped by the user via stop channel".

(** A fresh handle on key ["foo"]. *)
Definition waiter : EtcdLock := fst (LockWith vault "foo" "me").

(** The handle once its entry is [entry1]. *)
Definition holder : EtcdLock := setSemaphoreKey waiter entry1.

(** A waiting [Lock] call that is cancelled: the entry is created behind
    another one, the watch is stopped, the delete succeeds. *)
Definition cancelled : Script :=
  mkScript [inl created2; inl twoWaiters; inr ErrWatchStoppedByUser;
            inl (deleted entry2)].

(** An [Unlock] whose entry expires between the check and the delete. *)
Definition expired : Script :=
  mkScript [inl oneHolder; inr (EtcdError 100 "Key not found")].

Definition raftError : error := EtcdError 300 "Raft Internal Error".

(** Five failing watches, then the event that ends the watch. *)
Definition flaky : Script :=
  mkScript [inr raftError; inr raftError; inr raftError; inr raftError;
            inr raftError;
            inl (etcd.mkResponse "delete" (etcd.mkNode entry1 "" false []) 9)].

(** A listing of ["/vault/"] with a directory, a value node and a key that
    was not written by this backend. *)
Definition listing : etcd.Response :=
  etcd.mkResponse "get"
    (etcd.mkNode "/vault" "" true
       [etcd.mkNode "/vault/.bar" "YQ==" false [];
        etcd.mkNode "/vault/dir" "" true [];
        etcd.mkNode "/vault/foo" "YQ==" false []]) 3.

End Demo.

(** A client that is never reachable. *)
Record Down : Type := mkDown { attempts : nat }.

#[export] Instance down_client : Client Down :=
  fun _ w => (inr (ErrorString "connection refused"), mkDown (S (attempts w))).

(** ** Descriptions of listings, events and replies *)

(** An element of a cleaned path: not empty, without separator. *)
Definition element (e : string) : Prop := e <> "" /\ no_slash e = true.

(** The elements [Clean] keeps for [s], in order. *)
Definition kept (r : bool) (s : string) : list string :=
  rev (fold_left (Filepath.clean_step r) (Filepath.split s) []).

(** The key of the head of a listing: [""] for an empty one. *)
Definition headKey (listing : etcd.Response) : string :=
  match etcd.Nodes (etcd.RNode listing) with
  | [] => ""
  | first :: _ => etcd.Key first
  end.

(** Is the event the removal of [key]. *)
Definition removes (key : string) (event : etcd.Response) : bool :=
  String.eqb (etcd.Key (etcd.RNode event)) key
  && isRemoval (etcd.Action event).

(** The value of the head of a listing. *)
Definition headValue (listing : etcd.Response) : string :=
  match etcd.Nodes (etcd.RNode listing) with
  | [] => ""
  | first :: _ => etcd.Value first
  end.


(** A reply that ends the watch of [key]: the missing-key error, or the
    removal of the key. *)
Definition stops (key : string) (r : Reply) : bool :=
  match r with
  | inr err => errorIsMissingKey err
  | inl event => removes key event
  end.

(** A reply that costs a retry: an error other than missing-key. *)
Definition fails (r : Reply) : bool :=
  match r with
  | inr err => negb (errorIsMissingKey err)
  | inl _ => false
  end.

Definition failures (l : list Reply) : nat := length (filter fails l).

Definition sleeps (t : list Event) : nat :=
  length (filter (fun e => match e with Slept _ => true | _ => false end) t).

(** ** Waiting rounds of [Lock] *)

Section Waiting.

Context {W : Type} `{Client W}.

(** [waitsThrough dir key n idx w cs idx' w']: from index [idx] and world
    [w], [n] rounds of the waiting loop for [key] go by.  In each round
    the watch of [dir] returns an event that is not the removal of [key],
    and the listing read after it has another head.  [cs] are the calls
    made, [idx'] the index of the last listing and [w'] the world after
    them. *)
Inductive waitsThrough (dir key : string)
  : nat -> Z -> W -> list Call -> Z -> W -> Prop :=
| waits_done (idx : Z) (w : W) : waitsThrough dir key 0 idx w [] idx w
| waits_round (n : nat) (idx : Z) (w : W) (event : etcd.Response) (w1 : W)
              (listing : etcd.Response) (w2 : W) (cs : list Call)
              (idx' : Z) (w' : W) :
    perform (CallWatch dir (uint64_succ idx) true true) w = (inl event, w1) ->
    removes key event = false ->
    perform (CallGet dir true false) w1 = (inl listing, w2) ->
    headKey listing <> key ->
    waitsThrough dir key n (etcd.EtcdIndex listing) w2 cs idx' w' ->
    waitsThrough dir key (S n) idx w
      (CallWatch dir (uint64_succ idx) true true
       :: CallGet dir true false :: cs) idx' w'.

End Waiting.

(** ** Construction of the backend *)

(** [EtcdMachineDelimiter], a string of one character in the source. *)
Definition EtcdMachineDelimiter : ascii := ","%char.

(** [strings.Split(s, sep)] for a separator of one character. *)
Fixpoint SplitChar (sep : ascii) (s : string) : list string :=
  match s with
  | EmptyString => [EmptyString]
  | String c s' =>
      if Ascii.eqb c sep then EmptyString :: SplitChar sep s'
      else match SplitChar sep s' with
           | [] => [String c EmptyString]
           | h :: t => String c h :: t
           end
  end.

(** [conf[key]] of a [map[string]string] given by its bindings: the value
    and [ok]. *)
Fixpoint confGet (conf : list (string * string)) (key : string)
  : option string :=
  match conf with
  | [] => None
  | (k, v) :: conf' => if String.eqb k key then Some v else confGet conf' key
  end.

(** [newEtcdBackend].  [SyncCluster machines] is the result of
    [etcd.NewClient(machines).SyncCluster()]. *)
Definition newEtcdBackend (conf : list (string * string))
           (SyncCluster : list string -> bool)
  : option EtcdBackend * option error :=
  let path :=
    match confGet conf "path" with
    | Some p => p
    | None => "/vault"
    end in
  let path :=
    if negb (Strings.HasPrefix path "/") then "/" ++ path else path in
  let machines :=
    match confGet conf "address" with
    | Some address => address
    | None => "http://128.0.0.1:4001"
    end in
  if negb (SyncCluster (SplitChar EtcdMachineDelimiter machines))
  then (None, Some EtcdSyncClusterError)
  else (Some (mkEtcdBackend path), None).

(** ** More concrete runs *)

Module Scenario.

Import Demo.

Definition entry3 : string := "/vault/_foo/00000000000000000003".

Definition created1 : etcd.Response :=
  etcd.mkResponse "create" (etcd.mkNode entry1 "me" false []) 7.


(** A third waiter joins the queue. *)
Definition thirdJoins : etcd.Response :=
  etcd.mkResponse "create" (etcd.mkNode entry3 "third" false []) 8.

(** The first entry is deleted. *)
Definition headGone : etcd.Response :=
  etcd.mkResponse "delete" (etcd.mkNode entry1 "" false []) 9.

(** Our entry expires. *)
Definition oursExpired : etcd.Response :=
  etcd.mkResponse "expire" (etcd.mkNode entry2 "" false []) 8.

(** The handle once its entry is [entry2]. *)
Definition second : EtcdLock := setSemaphoreKey waiter entry2.

(** A backend on the root of the store and a listing of that root. *)
Definition rootBackend : EtcdBackend := mkEtcdBackend "/".

Definition rootListing : etcd.Response :=
  etcd.mkResponse "get"
    (etcd.mkNode "/" "" true
       [etcd.mkNode "/.foo" "YQ==" false [];
        etcd.mkNode "/dir" "" true []]) 3.

(** A listing of the root with a key that this backend did not write. *)
Definition rootForeign : etcd.Response :=
  etcd.mkResponse "get"
    (etcd.mkNode "/" "" true [etcd.mkNode "/xfoo" "YQ==" false []]) 3.

(** A waiting [Lock] call that is cancelled in its second round. *)
Definition cancelledLater : Script :=
  mkScript [inl created2; inl twoWaiters; inl thirdJoins; inl twoWaiters;
            inr ErrWatchStoppedByUser; inl (deleted entry2)].

(** A waiting [Lock] call whose second watch fails in the store. *)
Definition failedLater : Script :=
  mkScript [inl created2; inl twoWaiters; inl thirdJoins; inl twoWaiters;
            inr raftError].

(** A waiting [Lock] call whose entry expires in its second round. *)
Definition expiredLater : Script :=
  mkScript [inl created2; inl twoWaiters; inl thirdJoins; inl twoWaiters;
            inl oursExpired].

End Scenario.

(** * Properties *)

(** ** The library models on known values *)

Example Clean_examples :
  map Filepath.Clean
      ["/vault/./_foo/"; "a//b/../c"; "../../x"; "/.."; ""; "/"; "a/.."; "//"]
  = ["/vault/_foo"; "a/c"; "../../x"; "/"; "."; "/"; "."; "/"].
Proof. reflexivity. Qed.

Example Dir_Base_examples :
  map (fun p => (Filepath.Dir p, Filepath.Base p))
      ["a"; "a/b"; "/a/b/"; "///"; ""; "a/b/c.d"]
  = [(".", "a"); ("a", "b"); ("/a/b", "b"); ("/", "/"); (".", ".");
     ("a/b", "c.d")].
Proof. reflexivity. Qed.

Example Join_examples :
  map Filepath.Join [["a"; "b"]; [""; "a"; ""]; ["/t"; "."; ".b"]; [""; ""]]
  = ["a/b"; "a"; "/t/.b"; ""].
Proof. reflexivity. Qed.

Example Base64_examples :
  map Base64.EncodeToString [[]; [x66]; [x66; x6f]; [x66; x6f; x6f];
                             [x00; xff; x10; x80]]
  = [""; "Zg=="; "Zm8="; "Zm9v"; "AP8QgA=="]
  /\ map Base64.DecodeString ["Zm9v"; "Zm8="; "Zg=="; "Zg="; "Z==="; "Zm 9v"]
     = [Some [x66; x6f; x6f]; Some [x66; x6f]; Some [x66]; None; None; None].
Proof. split; reflexivity. Qed.

Example paths_examples :
  let b := mkEtcdBackend "/t" in
  (nodePath b "a/b", nodePath b "a", nodePathDir b "a/", nodePathDir b "")
  = ("/t/a/.b", "/t/.a", "/t/a/", "/t/").
Proof. reflexivity. Qed.

(** ** The backend on the single-process store *)

(** Write, read, list and delete under root ["/t"]: the value comes back
    byte for byte, the listing shows the leaf without its prefix and the
    directory with a separator, and a deleted key reads as absent. *)
Example store_write_read_delete :
  let b := mkEtcdBackend "/t" in
  fst (run (_ <- Put b (mkEntry "a/b" [x01; x02]) ;;
            g1 <- Get b "a/b" ;;
            _ <- Put b (mkEntry "a/d/z" [x00]) ;;
            l <- List b "a/" ;;
            _ <- Delete b "a/b" ;;
            g2 <- Get b "a/b" ;;
            d <- Delete b "a/b" ;;
            ret (g1, l, g2, d)) Store.empty)
  = ((Some (mkEntry "a/b" [x01; x02]), None),
     Return (Some ["b"; "d/"], None), (None, None), None).
Proof. reflexivity. Qed.

(** A handle alone on its key acquires the lock at once, is refused a
    second [Lock], stays out of the listing, and releases the lock. *)
Example store_lock_unlock :
  let b := mkEtcdBackend "/t" in
  let h := fst (LockWith b "a/x" "me") in
  fst (run (r1 <- Lock 3 h ;;
            r2 <- Lock 3 (snd r1) ;;
            _ <- Put b (mkEntry "a/y" [x00]) ;;
            l <- List b "a/" ;;
            v <- LockValue (snd r1) ;;
            u <- Unlock (snd r1) ;;
            ret (fst r1, fst r2, l, v, u)) Store.empty)
  = (Some (Some (mkLostChannel "/t/a/_x/00000000000000000001" 2), None),
     Some (None, Some EtcdLockHeldError),
     Return (Some ["y"], None), (true, "me", None), None).
Proof. reflexivity. Qed.

(** ** Paths: what [Clean] leaves at the end *)

Module FilepathFacts.
Import Filepath.

Lemma split_nonempty s : split s <> [].
Proof.
  destruct s as [|c s]; cbn; [discriminate|].
  destruct (Ascii.eqb c "/"); [discriminate|].
  destruct (split s); discriminate.
Qed.

Lemma split_app_slash a b : split (a ++ "/" ++ b) = (split a ++ split b)%list.
Proof.
  induction a as [|c a IH]; [reflexivity|].
  cbn [append split]. destruct (Ascii.eqb c "/").
  - cbn. f_equal. exact IH.
  - change (a ++ String "/" b) with (a ++ "/" ++ b). rewrite IH.
    destruct (split a) eqn:E; [now apply split_nonempty in E | reflexivity].
Qed.

Lemma split_no_slash s : no_slash s = true -> split s = [s].
Proof.
  unfold no_slash. induction s as [|c s IH]; [reflexivity|].
  cbn [list_ascii_of_string existsb split]. rewrite negb_orb.
  intros [C S]%andb_prop.
  rewrite Ascii.eqb_sym in C. apply negb_true_iff in C. rewrite C.
  rewrite IH by exact S. reflexivity.
Qed.

Lemma after_last_slash_no_slash s : no_slash (after_last_slash s) = true.
Proof.
  unfold no_slash. induction s as [|c s IH]; [reflexivity|].
  cbn [after_last_slash].
  destruct (existsb (Ascii.eqb "/") (list_ascii_of_string s)) eqn:E;
    [exact IH|].
  destruct (Ascii.eqb c "/") eqn:C.
  - now rewrite E.
  - cbn [list_ascii_of_string existsb]. rewrite Ascii.eqb_sym, C, E.
    reflexivity.
Qed.

Lemma no_slash_ends s : no_slash s = true -> Strings.ends_with_slash s = false.
Proof.
  unfold no_slash. induction s as [|c s IH]; [reflexivity|].
  cbn [list_ascii_of_string existsb Strings.ends_with_slash].
  rewrite negb_orb. intros [C S]%andb_prop.
  rewrite Ascii.eqb_sym in C. apply negb_true_iff in C.
  destruct s; [exact C | now apply IH].
Qed.

Lemma ends_with_slash_app pre e :
  e <> "" -> Strings.ends_with_slash (pre ++ e) = Strings.ends_with_slash e.
Proof.
  intros N. induction pre as [|c pre IH]; [reflexivity|].
  cbn [append Strings.ends_with_slash].
  destruct (pre ++ e) eqn:E; [|exact IH].
  destruct pre; [now contradiction N | discriminate].
Qed.

Lemma append_assoc (a b c : string) : (a ++ b) ++ c = a ++ b ++ c.
Proof. induction a as [|x a IH]; cbn; [reflexivity | now rewrite IH]. Qed.

Lemma Join_snoc l e : exists pre, Strings.Join (l ++ [e]) "/" = pre ++ e.
Proof.
  induction l as [|x l [pre IH]]; [now exists ""|].
  cbn [app Strings.Join]. rewrite IH.
  destruct (l ++ [e])%list eqn:E; [now destruct l|].
  exists (x ++ "/" ++ pre). now rewrite <- !append_assoc.
Qed.

Lemma clean_step_plain r out e : plain e -> clean_step r out e = e :: out.
Proof.
  intros (N0 & N1 & N2 & _). unfold clean_step.
  apply String.eqb_neq in N0, N1, N2. now rewrite N0, N1, N2.
Qed.

Lemma clean_step_empties r zs out :
  Forall (eq "") zs -> fold_left (clean_step r) zs out = out.
Proof.
  intros F. revert out. induction F as [|z zs <- _ IH]; intros out;
    [reflexivity | apply IH].
Qed.

(** A path whose last element that is not empty is plain is cleaned to a
    path that does not end with a separator. *)
Lemma Clean_plain_last s cs e zs :
  split s = (cs ++ e :: zs)%list -> plain e -> Forall (eq "") zs ->
  Strings.ends_with_slash (Clean s) = false.
Proof.
  intros S P Z. unfold Clean.
  destruct (String.eqb_spec s "") as [->|_].
  { reflexivity. }
  rewrite S, fold_left_app. cbn [fold_left].
  rewrite clean_step_plain by exact P.
  rewrite clean_step_empties by exact Z.
  cbn [rev].
  destruct (Join_snoc (rev (fold_left (clean_step (rooted s)) cs [])) e)
    as [pre ->].
  destruct P as (N0 & _ & _ & NS).
  assert (E : Strings.ends_with_slash (pre ++ e) = false)
    by (rewrite ends_with_slash_app by exact N0; now apply no_slash_ends).
  destruct (rooted s).
  - change (String "/" (pre ++ e)) with (("/" ++ pre) ++ e).
    rewrite ends_with_slash_app by exact N0. now apply no_slash_ends.
  - destruct (String.eqb_spec (pre ++ e) ""); [reflexivity | exact E].
Qed.

Lemma Join_cons e x rest sep :
  Strings.Join (e :: x :: rest) sep = e ++ sep ++ Strings.Join (x :: rest) sep.
Proof. reflexivity. Qed.

Lemma split_Join xs l :
  split (Strings.Join (xs ++ [l]) "/") = (flat_map split xs ++ split l)%list.
Proof.
  induction xs as [|x xs IH]; [reflexivity|].
  cbn [app flat_map]. destruct (xs ++ [l])%list as [|y ys] eqn:E;
    [now destruct xs|].
  rewrite Join_cons, split_app_slash, IH. now rewrite app_assoc.
Qed.

(** [Join] of elements the last of which is not empty cleans the elements
    from the first non-empty one on, joined by separators. *)
Lemma Join_last xs l :
  l <> "" ->
  exists xs', Join (xs ++ [l]) = Clean (Strings.Join (xs' ++ [l]) "/").
Proof.
  intros N. induction xs as [|x xs [xs' IH]].
  - exists []. cbn. apply String.eqb_neq in N. now rewrite N.
  - cbn [app Join]. destruct (String.eqb x "").
    + now exists xs'.
    + now exists (x :: xs).
Qed.

(** The lock element ["_" ++ Base key ++ "/"] splits into a plain element
    followed by empty ones. *)
Lemma split_lock_element key :
  exists e zs,
    split (EtcdNodeLockPrefix ++ Base key ++ "/") = e :: zs
    /\ plain e /\ Forall (eq "") zs.
Proof.
  unfold Base, EtcdNodeLockPrefix.
  destruct (String.eqb key "").
  { exists "_.", [""]. repeat split; try discriminate. now repeat constructor. }
  pose proof (after_last_slash_no_slash (strip_trailing_slashes key)) as NS.
  destruct (String.eqb_spec (after_last_slash (strip_trailing_slashes key)) "")
    as [_|_].
  { exists "_", [""; ""]. repeat split; try discriminate.
    now repeat constructor. }
  set (p := after_last_slash (strip_trailing_slashes key)) in *.
  exists ("_" ++ p), [""].
  assert (NS' : no_slash ("_" ++ p) = true) by exact NS.
  split; [|split].
  - change ("_" ++ p ++ "/") with (("_" ++ p) ++ "/" ++ "").
    rewrite split_app_slash, split_no_slash by exact NS'. reflexivity.
  - repeat split; try (cbn; discriminate). exact NS'.
  - now repeat constructor.
Qed.
End FilepathFacts.

(** ** Base64: decoding inverts encoding *)

Module Base64Facts.
Import Base64.

Ltac Zify.zify_post_hook ::= Z.to_euclidean_division_equations.

Lemma lt64_cases (P : N -> Prop) :
  (forall k : nat, (k < 64)%nat -> P (N.of_nat k)) ->
  forall n, (n < 64)%N -> P n.
Proof.
  intros HP n Hn. rewrite <- (N2Nat.id n). apply HP. lia.
Qed.

Lemma decodeChar_encodeChar n :
  (n < 64)%N -> decodeChar (encodeChar n) = Some n.
Proof.
  revert n. apply lt64_cases. intros k Hk.
  do 64 (destruct k as [|k]; [reflexivity|]). lia.
Qed.

Lemma encodeChar_not_newline n :
  (n < 64)%N -> isNewline (encodeChar n) = false.
Proof.
  revert n. apply lt64_cases. intros k Hk.
  do 64 (destruct k as [|k]; [reflexivity|]). lia.
Qed.

Lemma sextet_lt val k : (sextet val k < 64)%N.
Proof. unfold sextet. apply N.mod_lt. discriminate. Qed.

Lemma to_N_lt b : (Byte.to_N b < 256)%N.
Proof. pose proof (Byte.to_N_bounded b). lia. Qed.

Lemma byte_of_to_N b : byte_of_N (Byte.to_N b) = b.
Proof.
  unfold byte_of_N. rewrite N.mod_small by apply to_N_lt.
  now rewrite Byte.of_to_N.
Qed.

Lemma byte_of_N_eq n b : (n mod 256 = Byte.to_N b)%N -> byte_of_N n = b.
Proof.
  intros E. unfold byte_of_N. rewrite E. now rewrite Byte.of_to_N.
Qed.

Lemma quantum_sextets val :
  (val < 16777216)%N ->
  quantum (sextet val 18) (sextet val 12) (sextet val 6) (sextet val 0) = val.
Proof.
  intros Hv. unfold quantum, sextet.
  change (2 ^ 18)%N with 262144%N. change (2 ^ 12)%N with 4096%N.
  change (2 ^ 6)%N with 64%N. change (2 ^ 0)%N with 1%N.
  lia.
Qed.

Lemma group24_lt b0 b1 b2 : (group24 b0 b1 b2 < 16777216)%N.
Proof.
  unfold group24.
  pose proof (to_N_lt b0). pose proof (to_N_lt b1). pose proof (to_N_lt b2).
  lia.
Qed.

Lemma decodeChar_padding : decodeChar StdPadding = None.
Proof. reflexivity. Qed.

Lemma padding_not_newline : isNewline StdPadding = false.
Proof. reflexivity. Qed.

(** Decoding one full quantum. *)
Lemma decode_full d0 d1 d2 d3 c0 c1 c2 c3 rest :
  decodeChar c0 = Some d0 -> decodeChar c1 = Some d1 ->
  decodeChar c2 = Some d2 -> decodeChar c3 = Some d3 ->
  decode (c0 :: c1 :: c2 :: c3 :: rest) =
  match decode rest with
  | Some out =>
      let val := quantum d0 d1 d2 d3 in
      Some (byte_of_N (val / 65536) :: byte_of_N (val / 256)
            :: byte_of_N val :: out)
  | None => None
  end.
Proof. intros E0 E1 E2 E3. simpl. rewrite E0, E1, E2, E3. reflexivity. Qed.

Lemma group_bytes b0 b1 b2 :
  let val := group24 b0 b1 b2 in
  byte_of_N (val / 65536) = b0 /\ byte_of_N (val / 256) = b1
  /\ byte_of_N val = b2.
Proof.
  intros val. subst val. unfold group24.
  pose proof (to_N_lt b0). pose proof (to_N_lt b1). pose proof (to_N_lt b2).
  repeat split; apply byte_of_N_eq; lia.
Qed.

Theorem decode_encode src : decode (encode src) = Some src.
Proof.
  enough (G : forall n src, (length src <= n)%nat ->
                            decode (encode src) = Some src)
    by (apply (G (length src)); lia).
  clear src. induction n as [|n IH]; intros src Hlen.
  - destruct src; [reflexivity | simpl in Hlen; lia].
  - destruct src as [|b0 [|b1 [|b2 rest]]].
    + reflexivity.
    + cbn [encode]. cbn [decode].
      rewrite !decodeChar_encodeChar by apply sextet_lt.
      rewrite decodeChar_padding. cbn.
      f_equal. f_equal. apply byte_of_N_eq.
      unfold quantum, sextet, group24. pose proof (to_N_lt b0).
      change (2 ^ 18)%N with 262144%N. change (2 ^ 12)%N with 4096%N.
      cbn [Byte.to_N]. lia.
    + cbn [encode]. cbn [decode].
      rewrite !decodeChar_encodeChar by apply sextet_lt.
      rewrite decodeChar_padding. cbn.
      unfold quantum, sextet, group24.
      pose proof (to_N_lt b0). pose proof (to_N_lt b1).
      change (2 ^ 18)%N with 262144%N. change (2 ^ 12)%N with 4096%N.
      change (2 ^ 6)%N with 64%N. cbn [Byte.to_N].
      f_equal. f_equal; [|f_equal]; apply byte_of_N_eq; lia.
    + cbn [encode].
      erewrite decode_full by (apply decodeChar_encodeChar, sextet_lt).
      rewrite IH by (simpl in Hlen; lia).
      cbv zeta. rewrite quantum_sextets by apply group24_lt.
      destruct (group_bytes b0 b1 b2) as (E0 & E1 & E2).
      rewrite E0, E1, E2. reflexivity.
Qed.

Lemma encode_no_newline src : removeNewlines (encode src) = encode src.
Proof.
  enough (G : forall n src, (length src <= n)%nat ->
                            removeNewlines (encode src) = encode src)
    by (apply (G (length src)); lia).
  clear src. induction n as [|n IH]; intros src Hlen.
  - destruct src; [reflexivity | simpl in Hlen; lia].
  - destruct src as [|b0 [|b1 [|b2 rest]]]; cbn [encode];
      unfold removeNewlines; cbn [filter];
      rewrite ?encodeChar_not_newline by apply sextet_lt;
      rewrite ?padding_not_newline; cbn [negb]; try reflexivity.
    do 4 f_equal. apply IH. simpl in Hlen; lia.
Qed.

(** [DecodeString] inverts [EncodeToString] on every byte sequence. *)
Theorem DecodeString_EncodeToString src :
  DecodeString (EncodeToString src) = Some src.
Proof.
  unfold DecodeString, EncodeToString.
  rewrite list_ascii_of_string_of_list_ascii, encode_no_newline.
  apply decode_encode.
Qed.
End Base64Facts.


(** ** Reasoning about runs *)

Lemma errorIsMissingKey_spec err :
  errorIsMissingKey err = true <-> exists msg, err = EtcdError 100 msg.
Proof.
  destruct err as [code msg| |]; simpl; split;
    try discriminate; try (intros [m Hm]; discriminate).
  - intros E. apply Z.eqb_eq in E. subst. now exists msg.
  - intros [m Hm]. injection Hm as -> _. reflexivity.
Qed.

(** A call whose reply is known. *)
Lemma call_reply {W} `{Client W} (c : Call) (s : State W) r w' :
  perform c (world s) = (r, w') ->
  call c s = (r, mkState w' (trace s ++ [Called c])).
Proof. intros E. unfold call. now rewrite E. Qed.

Lemma bind_run {W A B} (m : M W A) (k : A -> M W B) s a s' :
  m s = (a, s') -> bind m k s = k a s'.
Proof. intros E. unfold bind. now rewrite E. Qed.

(** ** The key-value operations *)

Section BackendFacts.

Context {W : Type} `{Client W}.

(** [Put] sends the base64 text of the value to the value path and returns
    the store's error. *)
Lemma Put_run (c : EtcdBackend) (entry : Entry) (s : State W) r w' :
  perform (CallSet (nodePath c (Key entry))
                   (Base64.EncodeToString (Value entry)) 0) (world s)
  = (r, w') ->
  Put c entry s =
  (match r with inl _ => None | inr err => Some err end,
   mkState w' (trace s ++ [Called (CallSet (nodePath c (Key entry))
                              (Base64.EncodeToString (Value entry)) 0);
                           Measured ["etcd"; "put"]])).
Proof.
  intros E. unfold Put, measured, bind, call, emit, ret. rewrite E.
  destruct r; cbn; now rewrite <- app_assoc.
Qed.

Lemma Get_run (c : EtcdBackend) (key : string) (s : State W) r w' :
  perform (CallGet (nodePath c key) false false) (world s) = (r, w') ->
  Get c key s =
  (Get_result key r,
   mkState w' (trace s ++ [Called (CallGet (nodePath c key) false false);
                           Measured ["etcd"; "get"]])).
Proof.
  intros E. unfold Get, Get_result, measured, bind, call, emit, ret.
  rewrite E. destruct r as [response|err].
  - destruct (Base64.DecodeString _); cbn; now rewrite <- app_assoc.
  - destruct (errorIsMissingKey err); cbn; now rewrite <- app_assoc.
Qed.

(** C5: for every key [K] and every byte sequence [V], [Put(K, V)] followed
    by [Get(K)] yields an entry whose value is [V], byte for byte, when the
    store accepts the write and the read returns the stored text. *)
Theorem Put_Get_roundtrip (c : EtcdBackend) (K : string) (V : list byte)
        (s : State W) rset w1 rget w2 :
  perform (CallSet (nodePath c K) (Base64.EncodeToString V) 0) (world s)
  = (inl rset, w1) ->
  perform (CallGet (nodePath c K) false false) w1 = (inl rget, w2) ->
  etcd.Value (etcd.RNode rget) = Base64.EncodeToString V ->
  let (e, s1) := Put c (mkEntry K V) s in
  e = None /\ fst (Get c K s1) = (Some (mkEntry K V), None).
Proof.
  intros Eset Eget Eval.
  rewrite (Put_run c (mkEntry K V) s Eset). split; [reflexivity|].
  erewrite Get_run by (exact Eget). cbn [fst Get_result].
  rewrite Eval, Base64Facts.DecodeString_EncodeToString. reflexivity.
Qed.

(** C6: [Get] returns no entry and no error exactly when the read fails
    with the missing-key error (an etcd error of code 100); any other error
    of the read is returned as it is; and a stored text that is not base64
    gives a decode error and no entry. *)
Theorem Get_errors (c : EtcdBackend) (key : string) (s : State W) r w' :
  perform (CallGet (nodePath c key) false false) (world s) = (r, w') ->
  (fst (Get c key s) = (None, None)
   <-> exists msg, r = inr (EtcdError 100 msg))
  /\ (forall err, r = inr err -> errorIsMissingKey err = false ->
      fst (Get c key s) = (None, Some err))
  /\ (forall response, r = inl response ->
      Base64.DecodeString (etcd.Value (etcd.RNode response)) = None ->
      fst (Get c key s) = (None, Some CorruptInputError)).
Proof.
  intros E. rewrite (Get_run c key s E). cbn [fst].
  repeat split.
  - destruct r as [response|err]; cbn.
    + destruct (Base64.DecodeString _); discriminate.
    + destruct (errorIsMissingKey err) eqn:M; [|discriminate].
      apply errorIsMissingKey_spec in M as [msg ->]. now exists msg.
  - intros [msg ->]. reflexivity.
  - intros err -> M. cbn. now rewrite M.
  - intros response -> D. cbn. now rewrite D.
Qed.

(** Trimming a prefix that is there. *)
Lemma HasPrefix_app (p s : string) : Strings.HasPrefix (p ++ s) p = true.
Proof.
  unfold Strings.HasPrefix. induction p as [|a p IH]; simpl.
  - now destruct s.
  - destruct (ascii_dec a a); [exact IH | congruence].
Qed.

Lemma drop_app (p s : string) : Strings.drop (String.length p) (p ++ s) = s.
Proof. induction p; simpl; auto. Qed.

Lemma TrimPrefix_app (p s : string) : Strings.TrimPrefix (p ++ s) p = s.
Proof. unfold Strings.TrimPrefix. now rewrite HasPrefix_app, drop_app. Qed.

(** What [List] makes of a child named [name]. *)
Lemma listName_child (path name value : string) (dir : bool) nodes :
  listName path (etcd.mkNode (path ++ name) value dir nodes) =
  if dir then Some (name ++ "/")
  else match name with
       | EmptyString => None
       | String _ rest => Some rest
       end.
Proof. unfold listName. cbn. now rewrite TrimPrefix_app. Qed.

Lemma List_run (c : EtcdBackend) (prefix : string) (s : State W) r w' :
  perform (CallGet (nodePathDir c prefix) true false) (world s) = (r, w') ->
  fst (List c prefix s) =
  match r with
  | inr err =>
      if errorIsMissingKey err then Return (Some [], None)
      else Return (None, Some err)
  | inl response =>
      match listNames (nodePathDir c prefix)
                      (etcd.Nodes (etcd.RNode response)) with
      | None => Panic "slice bounds out of range"
      | Some out => Return (Some out, None)
      end
  end.
Proof.
  intros E. unfold List, measured, bind, call, emit, ret. rewrite E.
  destruct r as [response|err].
  - destruct (listNames _ _); reflexivity.
  - destruct (errorIsMissingKey err); reflexivity.
Qed.

(** The listing of children whose keys are the directory path followed by
    their names, files having a name that is not empty. *)
Lemma listNames_children (path : string) (nodes : list etcd.Node)
      (names : list string) :
  Forall2 (fun node name =>
             etcd.Key node = path ++ name
             /\ (etcd.Dir node = false -> name <> "")) nodes names ->
  listNames path nodes =
  Some (map (fun '(node, name) =>
               if etcd.Dir node then name ++ "/" else Strings.drop 1 name)
            (combine nodes names)).
Proof.
  induction 1 as [|node name nodes names [K N] _ IH]; [reflexivity|].
  cbn [listNames combine map]. rewrite IH.
  destruct node as [k v d ns]. cbn in K, N. subst k.
  rewrite listName_child. cbn [etcd.Dir].
  destruct d; [reflexivity|].
  destruct name; [now contradiction N | reflexivity].
Qed.

(** X21: [List] returns an empty list and no error when the directory is
    missing; when every child's key is the directory path followed by a
    name, the output has, for each child in turn, the name followed by
    ["/"] when the child is a directory, and the name without its first
    character when it is a file. *)
Theorem List_children (c : EtcdBackend) (prefix : string) (s : State W)
        r w' :
  perform (CallGet (nodePathDir c prefix) true false) (world s) = (r, w') ->
  (forall err, r = inr err -> errorIsMissingKey err = true ->
     fst (List c prefix s) = Return (Some [], None))
  /\ (forall response names, r = inl response ->
       Forall2 (fun node name =>
                  etcd.Key node = nodePathDir c prefix ++ name
                  /\ (etcd.Dir node = false -> name <> ""))
               (etcd.Nodes (etcd.RNode response)) names ->
       fst (List c prefix s) =
       Return (Some (map (fun '(node, name) =>
                            if etcd.Dir node then name ++ "/"
                            else Strings.drop 1 name)
                         (combine (etcd.Nodes (etcd.RNode response)) names)),
               None)).
Proof.
  intros E. rewrite (List_run c prefix s E). split.
  - intros err -> M. now rewrite M.
  - intros response names -> F. erewrite listNames_children by exact F. reflexivity.
Qed.

Lemma listNames_nth (path : string) (nodes : list etcd.Node) out i node :
  listNames path nodes = Some out ->
  nth_error nodes i = Some node ->
  exists name, listName path node = Some name /\ nth_error out i = Some name.
Proof.
  revert out i. induction nodes as [|n nodes IH]; intros out i L N.
  - destruct i; discriminate.
  - cbn [listNames] in L.
    destruct (listName path n) as [nm|] eqn:E1; [|discriminate].
    destruct (listNames path nodes) as [out'|] eqn:E2; [|discriminate].
    injection L as <-.
    destruct i as [|i]; cbn in N |- *.
    + injection N as ->. now exists nm.
    + now apply IH.
Qed.

Lemma listNames_total (path : string) (nodes : list etcd.Node) :
  Forall (fun node => exists name,
            etcd.Key node = path ++ name /\ name <> "") nodes ->
  exists out, listNames path nodes = Some out.
Proof.
  induction 1 as [|node nodes (name & K & N) _ (out & IH)].
  - now exists [].
  - cbn [listNames]. rewrite IH.
    destruct node as [k v d ns]. cbn in K. subst k.
    rewrite listName_child.
    destruct d; [eexists; reflexivity|].
    destruct name; [now contradiction N | eexists; reflexivity].
Qed.

(** X22: for a file child whose key is the directory path followed by a
    name, [List] removes the first character of the name whatever that
    character is: a key [path ++ ch :: rest] is listed as [rest], also when
    [ch] is not ["."]. *)
Theorem List_strips_any_first_char (c : EtcdBackend) (prefix : string)
        (s : State W) response w' i node (ch : ascii) (rest : string) :
  perform (CallGet (nodePathDir c prefix) true false) (world s)
  = (inl response, w') ->
  Forall (fun node => exists name,
            etcd.Key node = nodePathDir c prefix ++ name /\ name <> "")
         (etcd.Nodes (etcd.RNode response)) ->
  nth_error (etcd.Nodes (etcd.RNode response)) i = Some node ->
  etcd.Dir node = false ->
  etcd.Key node = nodePathDir c prefix ++ String ch rest ->
  exists out, fst (List c prefix s) = Return (Some out, None)
              /\ nth_error out i = Some rest.
Proof.
  intros E F N D K. rewrite (List_run c prefix s E).
  destruct (listNames_total _ F) as [out L]. rewrite L.
  exists out. split; [reflexivity|].
  destruct (listNames_nth _ _ _ L N) as (name & LN & Hn).
  rewrite Hn. f_equal.
  destruct node as [k v d ns]. cbn in D, K. subst d k.
  rewrite listName_child in LN. now injection LN.
Qed.

End BackendFacts.

(** ** The lock engine *)

Section LockFacts.

Context {W : Type} `{Client W}.

(** The head of the queue in a listing: its first node, the listing being
    asked for in sorted order. *)
Lemma getSemaphoreKey_run (c : EtcdLock) (s : State W) r w' :
  perform (CallGet (semaphoreDirKey c) true false) (world s) = (r, w') ->
  getSemaphoreKey c s =
  (match r with
   | inr err => ("", "", 0%Z, Some err)
   | inl response =>
       match etcd.Nodes (etcd.RNode response) with
       | [] => ("", "", etcd.EtcdIndex response, None)
       | first :: _ =>
           (etcd.Key first, etcd.Value first, etcd.EtcdIndex response, None)
       end
   end,
   mkState w' (trace s ++ [Called (CallGet (semaphoreDirKey c) true false)])).
Proof.
  intros E. unfold getSemaphoreKey, bind, call, ret. rewrite E.
  destruct r as [response|err]; [|reflexivity].
  destruct (etcd.Nodes _); reflexivity.
Qed.

Lemma isHeld_empty (c : EtcdLock) (s : State W) :
  semaphoreKey c = "" -> isHeld c s = ((false, None), s).
Proof. intros E. unfold isHeld. now rewrite E. Qed.

Lemma isHeld_run (c : EtcdLock) (s : State W) r w' :
  semaphoreKey c <> "" ->
  perform (CallGet (semaphoreDirKey c) true false) (world s) = (r, w') ->
  isHeld c s =
  (match r with
   | inr err => (false, Some err)
   | inl response =>
       match etcd.Nodes (etcd.RNode response) with
       | [] => (String.eqb (semaphoreKey c) "", None)
       | first :: _ => (String.eqb (semaphoreKey c) (etcd.Key first), None)
       end
   end,
   mkState w' (trace s ++ [Called (CallGet (semaphoreDirKey c) true false)])).
Proof.
  intros N E. unfold isHeld.
  apply String.eqb_neq in N. rewrite N.
  erewrite bind_run by (apply getSemaphoreKey_run; exact E).
  destruct r as [response|err]; [|reflexivity].
  destruct (etcd.Nodes _); rewrite ?N; reflexivity.
Qed.

(** C8: [isHeld] returns true exactly when the recorded queue entry is not
    empty and is the key of the head of the queue, the first node of the
    sorted listing of the queue directory; with an empty recorded entry it
    returns false and no error, without a call; an error of the read is
    returned. *)
Theorem isHeld_iff_head (c : EtcdLock) (s : State W) r w' :
  perform (CallGet (semaphoreDirKey c) true false) (world s) = (r, w') ->
  (fst (fst (isHeld c s)) = true
   <-> semaphoreKey c <> ""
       /\ exists response first rest,
            r = inl response
            /\ etcd.Nodes (etcd.RNode response) = first :: rest
            /\ etcd.Key first = semaphoreKey c)
  /\ (semaphoreKey c = "" -> isHeld c s = ((false, None), s))
  /\ (forall err, semaphoreKey c <> "" -> r = inr err ->
      fst (isHeld c s) = (false, Some err)).
Proof.
  intros E. repeat split.
  - destruct (String.eqb_spec (semaphoreKey c) "") as [K|K];
      [rewrite (isHeld_empty c s K) in *; discriminate | exact K].
  - destruct (String.eqb_spec (semaphoreKey c) "") as [K|K];
      [rewrite (isHeld_empty c s K) in *; discriminate|].
    rewrite (isHeld_run c s K E) in H0. cbn [fst] in H0.
    destruct r as [response|err]; [|discriminate].
    destruct (etcd.Nodes _) as [|first rest] eqn:Ns; cbn in H0.
    + apply String.eqb_eq in H0. contradiction.
    + apply String.eqb_eq in H0. now exists response, first, rest.
  - intros (K & response & first & rest & -> & Ns & Kf).
    rewrite (isHeld_run c s K E). rewrite Ns. cbn.
    rewrite Kf. apply String.eqb_refl.
  - apply isHeld_empty.
  - intros err K ->. now rewrite (isHeld_run c s K E).
Qed.

(** C9: [Lock] on a handle whose recorded queue entry is the head of the
    queue fails with [EtcdLockHeldError]; the only call it makes is the
    read of the queue, so no queue entry is created. *)
Theorem Lock_already_held (fuel : nat) (c : EtcdLock) (s : State W)
        response first rest w' :
  semaphoreKey c <> "" ->
  perform (CallGet (semaphoreDirKey c) true false) (world s)
  = (inl response, w') ->
  etcd.Nodes (etcd.RNode response) = first :: rest ->
  etcd.Key first = semaphoreKey c ->
  Lock fuel c s =
  ((Some (None, Some EtcdLockHeldError), c),
   mkState w' (trace s ++ [Called (CallGet (semaphoreDirKey c) true false)]))
  /\ calls (snd (Lock fuel c s))
     = (calls s ++ [CallGet (semaphoreDirKey c) true false])%list.
Proof.
  intros K E Ns Kf.
  assert (L : Lock fuel c s =
    ((Some (None, Some EtcdLockHeldError), c),
     mkState w'
       (trace s ++ [Called (CallGet (semaphoreDirKey c) true false)]))).
  { unfold Lock, assertNotHeld.
    erewrite bind_run.
    2:{ erewrite bind_run by (apply isHeld_run; [exact K | exact E]).
        cbn beta iota. rewrite Ns, Kf, String.eqb_refl. reflexivity. }
    reflexivity. }
  split; [exact L|].
  rewrite L. unfold calls. cbn [snd trace]. now rewrite flat_map_app.
Qed.

(** The error of a reply, as Go's [_, err = ...] keeps it. *)
Lemma assertHeld_head (c : EtcdLock) (s : State W) response first rest w' :
  semaphoreKey c <> "" ->
  perform (CallGet (semaphoreDirKey c) true false) (world s)
  = (inl response, w') ->
  etcd.Nodes (etcd.RNode response) = first :: rest ->
  etcd.Key first = semaphoreKey c ->
  assertHeld c s =
  (None,
   mkState w' (trace s ++ [Called (CallGet (semaphoreDirKey c) true false)])).
Proof.
  intros K E Ns Kf. unfold assertHeld.
  erewrite bind_run by (apply isHeld_run; [exact K | exact E]).
  cbn beta iota. rewrite Ns, Kf, String.eqb_refl. reflexivity.
Qed.

(** C3, as the code has it: [Unlock] on a handle that holds the lock
    deletes the handle's queue entry and returns the error of that delete
    as it is, a missing-key error included; it returns no error only when
    the delete succeeds. *)
Theorem Unlock_returns_delete_error (c : EtcdLock) (s : State W)
        response first rest w1 d w2 :
  semaphoreKey c <> "" ->
  perform (CallGet (semaphoreDirKey c) true false) (world s)
  = (inl response, w1) ->
  etcd.Nodes (etcd.RNode response) = first :: rest ->
  etcd.Key first = semaphoreKey c ->
  perform (CallDelete (semaphoreKey c) false) w1 = (d, w2) ->
  Unlock c s =
  (replyError d,
   mkState w2 (trace s ++ [Called (CallGet (semaphoreDirKey c) true false);
                           Called (CallDelete (semaphoreKey c) false)])).
Proof.
  intros K E Ns Kf D. unfold Unlock.
  erewrite bind_run by (eapply assertHeld_head; eassumption).
  cbn beta iota.
  erewrite bind_run by (apply call_reply; exact D).
  cbn [trace]. rewrite <- app_assoc. now destruct d.
Qed.

(** One turn of the waiting loop whose watch is stopped. *)
Lemma lockLoop_cancelled (fuel : nat) (c : EtcdLock) (key current : string)
      (index : Z) (s : State W) cancelErr w1 d w2 :
  key <> current ->
  perform (CallWatch (semaphoreDirKey c) (uint64_succ index) true true)
          (world s) = (inr cancelErr, w1) ->
  isEtcdError cancelErr = false ->
  perform (CallDelete (semaphoreKey c) false) w1 = (d, w2) ->
  lockLoop (S fuel) c key current index s =
  (Some (None, replyError d),
   mkState w2
     (trace s ++
      [Called (CallWatch (semaphoreDirKey c) (uint64_succ index) true true);
       Called (CallDelete (semaphoreKey c) false)])).
Proof.
  intros N Wt Ne D. cbn [lockLoop].
  apply String.eqb_neq in N. rewrite N.
  unfold bind, call, ret. rewrite Wt. cbn [world trace]. rewrite Ne.
  cbn [negb world trace]. rewrite D. rewrite <- app_assoc. now destruct d.
Qed.

(** The trace of [k + 1] failed watch calls with the pacing sleeps between
    them. *)
Lemma watchLoop_all_fail
      (Hfail : forall key idx w, exists err w',
          perform (CallWatch key idx false false) w = (inr err, w')
          /\ errorIsMissingKey err = false)
      (k fuel : nat) (key : string) (idx : Z) (s : State W) :
  (k < fuel)%nat ->
  exists w',
    watchLoop fuel key idx (Z.of_nat (S k)) s =
    (true, mkState w' (trace s ++ failedWatches key idx k)).
Proof.
  revert fuel s. induction k as [|k IH]; intros fuel s Hk;
    (destruct fuel as [|fuel]; [lia|]);
    destruct (Hfail key idx (world s)) as (err & w' & E & M);
    cbn [watchLoop];
    erewrite bind_run by (apply call_reply; exact E);
    cbn beta iota zeta; rewrite M.
  - exists w'. reflexivity.
  - replace (Z.of_nat (S (S k)) - 1)%Z with (Z.of_nat (S k)) by lia.
    destruct (Z.eqb_spec (Z.of_nat (S k)) 0) as [Z0|_]; [lia|].
    unfold Sleep, bind, emit. cbn [world trace].
    destruct (IH fuel
                (mkState w' ((trace s ++
                  [Called (CallWatch key idx false false)]) ++
                  [Slept EtcdWatchRetryInterval])) ltac:(lia)) as [w'' IH'].
    rewrite IH'. exists w''. cbn [trace failedWatches].
    now rewrite <- !app_assoc.
Qed.

(** When every watch fails with an error other than missing-key, the
    watcher exits on the fifth failure: the first call and four retries. *)
Lemma watchForKeyRemoval_all_fail
      (Hfail : forall key idx w, exists err w',
          perform (CallWatch key idx false false) w = (inr err, w')
          /\ errorIsMissingKey err = false)
      (fuel : nat) (key : string) (idx : Z) (s : State W) :
  (5 <= fuel)%nat ->
  exists w',
    watchForKeyRemoval fuel key idx s =
    (true, mkState w' (trace s ++ failedWatches key idx 4)).
Proof.
  intros F. unfold watchForKeyRemoval.
  apply (watchLoop_all_fail Hfail (k := 4)). lia.
Qed.

End LockFacts.

(** ** The lock-queue path *)

(** X1: for every root and every key, the path of [nodePathLock] does not
    end with a separator: the one the code appends is always cleaned
    away. *)
Theorem nodePathLock_never_ends_with_slash (b : EtcdBackend) (key : string) :
  Strings.ends_with_slash (nodePathLock b key) = false.
Proof.
  unfold nodePathLock.
  destruct (FilepathFacts.split_lock_element key) as (e & zs & S & P & Z).
  assert (N : EtcdNodeLockPrefix ++ Filepath.Base key ++ "/" <> "")
    by discriminate.
  destruct (FilepathFacts.Join_last [path b; Filepath.Dir key] N)
    as [xs' J].
  cbn [app] in J. rewrite J.
  apply FilepathFacts.Clean_plain_last
    with (cs := flat_map Filepath.split xs') (e := e) (zs := zs).
  - now rewrite FilepathFacts.split_Join, S.
  - exact P.
  - exact Z.
Qed.

(** ** The claims on concrete runs *)

Section ConcreteRuns.

Import Demo.

(** C2: the lock-queue path of key ["foo"] under root ["/vault"] is
    ["/vault/_foo"]: the separator appended inside [filepath.Join] is
    cleaned away, and the path does not end with one, while the directory
    path of [nodePathDir] does. *)
Theorem nodePathLock_no_trailing_slash :
  nodePathLock vault "foo" = "/vault/_foo"
  /\ Strings.ends_with_slash (nodePathLock vault "foo") = false
  /\ nodePathDir vault "foo" = "/vault/foo/".
Proof. repeat split. Qed.

(** C1 as stated fails: the cancelled call deletes its entry and returns a
    nil channel and a nil error. *)
Lemma Lock_cancelled_returns_nil :
  isEtcdError ErrWatchStoppedByUser = false
  /\ run (Lock 1 waiter) cancelled =
     ((Some (None, None), setSemaphoreKey waiter entry2),
      mkState (mkScript [])
        [Called (CallCreateInOrder queue "me" 15);
         Called (CallGet queue true false);
         Called (CallWatch queue 8 true true);
         Called (CallDelete entry2 false)]).
Proof. split; reflexivity. Qed.

(** C3 as stated fails: the delete of a held entry that is gone returns the
    missing-key error, and so does [Unlock]. *)
Lemma Unlock_returns_missing_key :
  errorIsMissingKey (EtcdError 100 "Key not found") = true
  /\ run (Unlock holder) expired =
     (Some (EtcdError 100 "Key not found"),
      mkState (mkScript [])
        [Called (CallGet queue true false);
         Called (CallDelete entry1 false)]).
Proof. split; reflexivity. Qed.

Lemma Unlock_returns_delete_error_witness :
  let s := mkState expired [] in
  let w1 := mkScript [inr (EtcdError 100 "Key not found")] in
  semaphoreKey holder <> ""
  /\ perform (CallGet (semaphoreDirKey holder) true false) (world s)
     = (inl oneHolder, w1)
  /\ etcd.Nodes (etcd.RNode oneHolder) = [etcd.mkNode entry1 "me" false []]
  /\ etcd.Key (etcd.mkNode entry1 "me" false []) = semaphoreKey holder
  /\ perform (CallDelete (semaphoreKey holder) false) w1
     = (inr (EtcdError 100 "Key not found"), mkScript [])
  /\ Unlock holder s =
     (Some (EtcdError 100 "Key not found"),
      mkState (mkScript [])
        [Called (CallGet queue true false);
         Called (CallDelete entry1 false)]).
Proof.
  cbv zeta.
  assert (N : semaphoreKey holder <> "") by discriminate.
  repeat (split; [first [reflexivity | exact N]|]).
  apply (@Unlock_returns_delete_error Script _ holder (mkState expired [])
           oneHolder (etcd.mkNode entry1 "me" false []) []
           (mkScript [inr (EtcdError 100 "Key not found")])
           (inr (EtcdError 100 "Key not found")) (mkScript []));
    first [reflexivity | exact N].
Defined.

(** C4: when the watch keeps failing, the watcher makes five watch calls,
    the first one and four retries, and exits on the fifth failure; the
    sixth reply, which a fifth retry would have received, is left unread. *)
Theorem watchForKeyRemoval_four_retries :
  run (watchForKeyRemoval 10 entry1 8) flaky =
  (true,
   mkState
     (mkScript
        [inl (etcd.mkResponse "delete" (etcd.mkNode entry1 "" false []) 9)])
     [Called (CallWatch entry1 8 false false); Slept 1;
      Called (CallWatch entry1 8 false false); Slept 1;
      Called (CallWatch entry1 8 false false); Slept 1;
      Called (CallWatch entry1 8 false false); Slept 1;
      Called (CallWatch entry1 8 false false)])
  /\ EtcdWatchRetryMax = 5%Z.
Proof. split; reflexivity. Qed.

Lemma Put_Get_roundtrip_witness :
  let c := mkEtcdBackend "/t" in
  let V := [x01; x02; x00; xff] in
  let s := mkState Store.empty [] in
  let node := etcd.mkNode "/t/a/.b" "AQIA/w==" false [] in
  let w1 := Store.mk [("/t/a/.b", "AQIA/w==")] 1 in
  perform (CallSet (nodePath c "a/b") (Base64.EncodeToString V) 0) (world s)
  = (inl (etcd.mkResponse "set" node 1), w1)
  /\ perform (CallGet (nodePath c "a/b") false false) w1
     = (inl (etcd.mkResponse "get" node 1), w1)
  /\ etcd.Value node = Base64.EncodeToString V
  /\ (let (e, s1) := Put c (mkEntry "a/b" V) s in
      e = None /\ fst (Get c "a/b" s1) = (Some (mkEntry "a/b" V), None)).
Proof.
  cbv zeta.
  do 3 (split; [reflexivity|]).
  apply (@Put_Get_roundtrip Store.t _ (mkEtcdBackend "/t") "a/b"
           [x01; x02; x00; xff] (mkState Store.empty [])
           (etcd.mkResponse "set"
              (etcd.mkNode "/t/a/.b" "AQIA/w==" false []) 1)
           (Store.mk [("/t/a/.b", "AQIA/w==")] 1)
           (etcd.mkResponse "get"
              (etcd.mkNode "/t/a/.b" "AQIA/w==" false []) 1)
           (Store.mk [("/t/a/.b", "AQIA/w==")] 1));
    reflexivity.
Defined.

Lemma Get_errors_witness :
  let s := mkState (mkScript [inr (EtcdError 100 "Key not found")]) [] in
  perform (CallGet (nodePath vault "nope") false false) (world s)
  = (inr (EtcdError 100 "Key not found"), mkScript [])
  /\ fst (Get vault "nope" s) = (None, None).
Proof.
  cbv zeta. split; [reflexivity|].
  apply (proj1 (@Get_errors Script _ vault "nope"
                  (mkState (mkScript [inr (EtcdError 100 "Key not found")])
                           [])
                  (inr (EtcdError 100 "Key not found")) (mkScript [])
                  eq_refl)).
  now exists "Key not found".
Defined.

Lemma List_children_witness :
  let s := mkState (mkScript [inl listing]) [] in
  let s0 := mkState (mkScript [inr (EtcdError 100 "Key not found")]) [] in
  let names := [".bar"; "dir"; "foo"] in
  perform (CallGet (nodePathDir vault "") true false) (world s)
  = (inl listing, mkScript [])
  /\ Forall2 (fun node name =>
                etcd.Key node = nodePathDir vault "" ++ name
                /\ (etcd.Dir node = false -> name <> ""))
             (etcd.Nodes (etcd.RNode listing)) names
  /\ fst (List vault "" s) = Return (Some ["bar"; "dir/"; "oo"], None)
  /\ perform (CallGet (nodePathDir vault "") true false) (world s0)
     = (inr (EtcdError 100 "Key not found"), mkScript [])
  /\ errorIsMissingKey (EtcdError 100 "Key not found") = true
  /\ fst (List vault "" s0) = Return (Some [], None).
Proof.
  cbv zeta.
  assert (F : Forall2 (fun node name =>
                etcd.Key node = nodePathDir vault "" ++ name
                /\ (etcd.Dir node = false -> name <> ""))
             (etcd.Nodes (etcd.RNode listing)) [".bar"; "dir"; "foo"])
    by (repeat constructor; discriminate).
  split; [reflexivity|]. split; [exact F|]. split.
  - exact (proj2 (@List_children Script _ vault ""
                    (mkState (mkScript [inl listing]) [])
                    (inl listing) (mkScript []) eq_refl)
                 listing [".bar"; "dir"; "foo"] eq_refl F).
  - do 2 (split; [reflexivity|]).
    exact (proj1 (@List_children Script _ vault ""
                    (mkState (mkScript [inr (EtcdError 100 "Key not found")])
                             [])
                    (inr (EtcdError 100 "Key not found")) (mkScript [])
                    eq_refl)
                 (EtcdError 100 "Key not found") eq_refl eq_refl).
Defined.

Lemma List_strips_any_first_char_witness :
  let s := mkState (mkScript [inl listing]) [] in
  let node := etcd.mkNode "/vault/foo" "YQ==" false [] in
  perform (CallGet (nodePathDir vault "") true false) (world s)
  = (inl listing, mkScript [])
  /\ nth_error (etcd.Nodes (etcd.RNode listing)) 2 = Some node
  /\ etcd.Key node = nodePathDir vault "" ++ "foo"
  /\ exists out, fst (List vault "" s) = Return (Some out, None)
                 /\ nth_error out 2 = Some "oo".
Proof.
  cbv zeta. do 3 (split; [reflexivity|]).
  apply (@List_strips_any_first_char Script _ vault ""
           (mkState (mkScript [inl listing]) []) listing (mkScript []) 2
           (etcd.mkNode "/vault/foo" "YQ==" false []) "f"%char "oo");
    try reflexivity.
  repeat constructor;
    [exists ".bar" | exists "dir" | exists "foo"]; split;
    first [reflexivity | discriminate].
Defined.

Lemma isHeld_iff_head_witness :
  let s := mkState (mkScript [inl oneHolder]) [] in
  perform (CallGet (semaphoreDirKey holder) true false) (world s)
  = (inl oneHolder, mkScript [])
  /\ fst (fst (isHeld holder s)) = true.
Proof.
  cbv zeta. split; [reflexivity|].
  apply (proj1 (@isHeld_iff_head Script _ holder
                  (mkState (mkScript [inl oneHolder]) [])
                  (inl oneHolder) (mkScript []) eq_refl)).
  split; [discriminate|].
  exists oneHolder, (etcd.mkNode entry1 "me" false []), [].
  repeat split.
Defined.

Lemma Lock_already_held_witness :
  let s := mkState (mkScript [inl oneHolder]) [] in
  semaphoreKey holder <> ""
  /\ perform (CallGet (semaphoreDirKey holder) true false) (world s)
     = (inl oneHolder, mkScript [])
  /\ etcd.Nodes (etcd.RNode oneHolder) = [etcd.mkNode entry1 "me" false []]
  /\ Lock 3 holder s =
     ((Some (None, Some EtcdLockHeldError), holder),
      mkState (mkScript []) [Called (CallGet queue true false)]).
Proof.
  cbv zeta.
  assert (N : semaphoreKey holder <> "") by discriminate.
  repeat (split; [first [reflexivity | exact N]|]).
  exact (proj1 (@Lock_already_held Script _ 3 holder
                  (mkState (mkScript [inl oneHolder]) []) oneHolder
                  (etcd.mkNode entry1 "me" false []) [] (mkScript [])
                  N eq_refl eq_refl eq_refl)).
Defined.

(** The same count on a store that is never reachable. *)
Example watchForKeyRemoval_unreachable :
  exists w',
    run (watchForKeyRemoval 5 entry1 8) (mkDown 0) =
    (true, mkState w' (failedWatches entry1 8 4)).
Proof.
  apply (@watchForKeyRemoval_all_fail Down _); [|lia].
  intros key idx w. do 2 eexists. split; reflexivity.
Qed.

End ConcreteRuns.

(** * Further properties *)

(** ** Paths *)

Module PathFacts.
Import Filepath FilepathFacts.

Lemma split_no_slashes s : Forall (fun e => no_slash e = true) (split s).
Proof.
  induction s as [|c s IH]; [now repeat constructor|].
  cbn [split]. destruct (Ascii.eqb c "/") eqn:C.
  - now constructor.
  - destruct (split s) as [|h t] eqn:E; [now apply split_nonempty in E|].
    inversion IH as [|? ? Hh Ht]; subst. constructor; [|exact Ht].
    unfold no_slash in *. cbn [list_ascii_of_string existsb].
    now rewrite Ascii.eqb_sym, C.
Qed.

Lemma clean_step_elements r out e :
  no_slash e = true -> Forall element out ->
  Forall element (clean_step r out e).
Proof.
  intros NS F. unfold clean_step.
  destruct (String.eqb_spec e ""); [exact F|].
  destruct (String.eqb e "."); [exact F|].
  destruct (String.eqb e "..").
  - destruct out as [|top out'].
    + destruct r; [exact F | now repeat constructor].
    + destruct (String.eqb top "..").
      * constructor; [now split | exact F].
      * now inversion F.
  - constructor; [now split | exact F].
Qed.

Lemma fold_clean_elements r cs out :
  Forall (fun e => no_slash e = true) cs -> Forall element out ->
  Forall element (fold_left (clean_step r) cs out).
Proof.
  intros C. revert out. induction C as [|e cs NS _ IH]; intros out F;
    [exact F|].
  cbn [fold_left]. apply IH. now apply clean_step_elements.
Qed.

Lemma kept_elements r s : Forall element (kept r s).
Proof.
  unfold kept. apply Forall_rev, fold_clean_elements;
    [apply split_no_slashes | constructor].
Qed.

Lemma Join_elements_nonempty l :
  l <> [] -> Forall element l -> Strings.Join l "/" <> "".
Proof.
  destruct l as [|x l]; [congruence|]. intros _ F.
  inversion F as [|? ? [N _] _]; subst.
  destruct l; cbn [Strings.Join]; [exact N|].
  destruct x; [congruence | discriminate].
Qed.

Lemma Join_app_last l e :
  l <> [] ->
  Strings.Join (l ++ [e]) "/" = Strings.Join l "/" ++ "/" ++ e.
Proof.
  induction l as [|x l IH]; [congruence|]. intros _.
  destruct l as [|y l]; [reflexivity|].
  change ((x :: y :: l) ++ [e])%list with (x :: (y :: l) ++ [e])%list.
  cbn [app]. rewrite !Join_cons.
  change (y :: (l ++ [e])%list) with ((y :: l) ++ [e])%list.
  rewrite IH by discriminate. now rewrite !append_assoc.
Qed.

(** [Clean] of a rooted path. *)
Lemma Clean_rooted s :
  rooted s = true -> Clean s = String "/" (Strings.Join (kept true s) "/").
Proof.
  intros R. unfold Clean, kept.
  destruct (String.eqb_spec s "") as [->|_]; [discriminate|].
  now rewrite R.
Qed.

Lemma rooted_app s t : rooted s = true -> rooted (s ++ t) = true.
Proof. destruct s; [discriminate | exact (fun H => H)]. Qed.

Lemma kept_snoc_plain r s e :
  plain e -> kept r (s ++ "/" ++ e) = (kept r s ++ [e])%list.
Proof.
  intros P. unfold kept.
  assert (E : split e = [e]) by (apply split_no_slash, P).
  rewrite split_app_slash, fold_left_app, E.
  cbn [fold_left]. rewrite clean_step_plain by exact P. reflexivity.
Qed.

Lemma kept_snoc_empty r s : kept r (s ++ "/") = kept r s.
Proof.
  unfold kept. change (s ++ "/") with (s ++ "/" ++ "").
  now rewrite split_app_slash, fold_left_app.
Qed.

(** Cleaning a rooted path followed by a plain element: the cleaned path,
    a separator unless the path is the root, and the element. *)
Lemma Clean_snoc_plain s e :
  rooted s = true -> plain e ->
  Clean (s ++ "/" ++ e) =
  (if String.eqb (Clean s) "/" then "/" else Clean s ++ "/") ++ e.
Proof.
  intros R P.
  assert (R' : rooted (s ++ "/" ++ e) = true) by now apply rooted_app.
  apply Clean_rooted in R'. rewrite R'. clear R'.
  apply Clean_rooted in R. rewrite R. clear R.
  rewrite kept_snoc_plain by exact P.
  destruct (kept true s) as [|x l] eqn:K; [reflexivity|].
  rewrite Join_app_last by discriminate.
  assert (N : Strings.Join (x :: l) "/" <> "").
  { apply Join_elements_nonempty; [discriminate|].
    rewrite <- K. apply kept_elements. }
  destruct (String.eqb_spec (String "/" (Strings.Join (x :: l) "/")) "/")
    as [Q|_]; [injection Q as Q; contradiction|].
  cbn [append]. now rewrite !append_assoc.
Qed.

(** A cleaned path ends with a separator only when it is the root. *)
Lemma Clean_root_or_no_trailing_slash s :
  Clean s = "/" \/ Strings.ends_with_slash (Clean s) = false.
Proof.
  unfold Clean. destruct (String.eqb s ""); [now right|].
  fold (kept (rooted s) s).
  pose proof (kept_elements (rooted s) s) as F.
  destruct (kept (rooted s) s) as [|x l] eqn:K.
  - destruct (rooted s); [now left | now right].
  - right.
    assert (exists l' e, (x :: l = l' ++ [e])%list) as (l' & e & E).
    { destruct (exists_last (l := x :: l)) as (l' & e & E);
        [discriminate | now exists l', e]. }
    rewrite E in *. apply Forall_app in F as [_ Fe].
    inversion Fe as [|? ? [N NS] _]; subst.
    destruct (Join_snoc l' e) as [pre ->].
    assert (Q : Strings.ends_with_slash (pre ++ e) = false)
      by (rewrite ends_with_slash_app by exact N; now apply no_slash_ends).
    destruct (rooted s).
    + change (String "/" (pre ++ e)) with (("/" ++ pre) ++ e).
      rewrite ends_with_slash_app by exact N. now apply no_slash_ends.
    + destruct (String.eqb (pre ++ e) ""); [reflexivity | exact Q].
Qed.


Lemma rooted_snoc s t : s <> "" -> rooted (s ++ t) = rooted s.
Proof. destruct s; [congruence | reflexivity]. Qed.

(** A trailing separator does not change what a path is cleaned to. *)
Lemma Clean_trailing_slash s : s <> "" -> Clean (s ++ "/") = Clean s.
Proof.
  intros N. unfold Clean.
  destruct (String.eqb_spec s "") as [|_]; [contradiction|].
  destruct (String.eqb_spec (s ++ "/") "") as [E|_];
    [destruct s; discriminate|].
  rewrite rooted_snoc by exact N.
  fold (kept (rooted s) (s ++ "/")). fold (kept (rooted s) s).
  now rewrite kept_snoc_empty.
Qed.

Lemma has_slash_app a b :
  existsb (Ascii.eqb "/") (list_ascii_of_string (a ++ "/" ++ b)) = true.
Proof.
  induction a as [|c a IH]; [reflexivity|].
  cbn [append list_ascii_of_string existsb].
  change (a ++ String "/" b) with (a ++ "/" ++ b).
  rewrite IH. apply orb_true_r.
Qed.

Lemma after_last_slash_app a e :
  no_slash e = true -> after_last_slash (a ++ "/" ++ e) = e.
Proof.
  intros NS. induction a as [|c a IH].
  - cbn [append after_last_slash]. unfold no_slash in NS.
    apply negb_true_iff in NS. now rewrite NS.
  - cbn [append after_last_slash].
    change (a ++ String "/" e) with (a ++ "/" ++ e).
    now rewrite has_slash_app.
Qed.

Lemma after_last_slash_self e : no_slash e = true -> after_last_slash e = e.
Proof.
  unfold no_slash. intros NS. apply negb_true_iff in NS.
  destruct e as [|c e]; [reflexivity|].
  cbn [list_ascii_of_string existsb] in NS.
  apply orb_false_elim in NS as [C E].
  cbn [after_last_slash]. rewrite E. rewrite Ascii.eqb_sym in C.
  now rewrite C.
Qed.

(** The last element of the cleaned path, when the last element of the
    path that is not empty is plain. *)
Lemma Clean_last_element s cs e zs :
  split s = (cs ++ e :: zs)%list -> plain e -> Forall (eq "") zs ->
  after_last_slash (Clean s) = e.
Proof.
  intros S P Z. unfold Clean.
  destruct (String.eqb_spec s "") as [->|_].
  { destruct cs as [|? [|? ?]]; cbn in S; try discriminate.
    injection S as <- _. now destruct P. }
  rewrite S, fold_left_app. cbn [fold_left].
  rewrite clean_step_plain by exact P.
  rewrite clean_step_empties by exact Z.
  cbn [rev].
  assert (NS : no_slash e = true) by apply P.
  assert (N : e <> "") by apply P.
  set (l := rev (fold_left (clean_step (rooted s)) cs [])).
  assert (J : Strings.Join (l ++ [e]) "/" = e
              \/ exists a, Strings.Join (l ++ [e]) "/" = a ++ "/" ++ e).
  { destruct l as [|x l']; [now left|]. right.
    exists (Strings.Join (x :: l') "/"). now apply Join_app_last. }
  destruct (rooted s).
  - destruct J as [->|[a ->]].
    + change (String "/" e) with ("" ++ "/" ++ e).
      now apply after_last_slash_app.
    + change (String "/" (a ++ "/" ++ e)) with (("/" ++ a) ++ "/" ++ e).
      now apply after_last_slash_app.
  - destruct J as [->|[a ->]].
    + apply String.eqb_neq in N. rewrite N.
      now apply after_last_slash_self.
    + destruct (String.eqb_spec (a ++ "/" ++ e) "") as [Q|_];
        [destruct a; discriminate|].
      now apply after_last_slash_app.
Qed.

(** [Base] is ["."], ["/"] or an element. *)
Lemma Base_cases key :
  Base key = "." \/ Base key = "/" \/ element (Base key).
Proof.
  unfold Base. destruct (String.eqb key ""); [now left|].
  pose proof (after_last_slash_no_slash (strip_trailing_slashes key)) as NS.
  destruct (String.eqb_spec (after_last_slash (strip_trailing_slashes key)) "")
    as [_|N]; [now right; left | right; right; now split].
Qed.

Lemma file_element_plain key :
  Base key <> "." -> Base key <> "/" ->
  plain (EtcdNodeFilePrefix ++ Base key).
Proof.
  intros N1 N2. destruct (Base_cases key) as [?|[?|[N NS]]]; try contradiction.
  unfold EtcdNodeFilePrefix. repeat split.
  - discriminate.
  - cbn. intros [= Q]. contradiction.
  - cbn. intros [= Q]. contradiction.
  - exact NS.
Qed.

Lemma lock_element_plain key :
  Base key <> "/" -> plain (EtcdNodeLockPrefix ++ Base key).
Proof.
  intros N2. unfold EtcdNodeLockPrefix.
  repeat split; try (cbn; discriminate).
  destruct (Base_cases key) as [->|[?|[N NS]]];
    [reflexivity | contradiction | exact NS].
Qed.

Lemma Join2 p d : p <> "" -> Join [p; d] = Clean (p ++ "/" ++ d).
Proof.
  intros N. cbn [Join]. apply String.eqb_neq in N. now rewrite N.
Qed.

Lemma Join3 p d e :
  p <> "" -> Join [p; d; e] = Clean ((p ++ "/" ++ d) ++ "/" ++ e).
Proof.
  intros N. cbn [Join]. apply String.eqb_neq in N. rewrite N.
  cbn [Strings.Join]. now rewrite !append_assoc.
Qed.

Lemma rooted_nonempty p : rooted p = true -> p <> "".
Proof. destruct p; [discriminate | discriminate]. Qed.

(** Joining a plain element to a rooted path and a directory that do not
    join to the root: the joined directory, a separator, the element. *)
Lemma Join3_plain p d e :
  rooted p = true -> plain e -> Join [p; d] <> "/" ->
  Join [p; d; e] = Join [p; d] ++ "/" ++ e.
Proof.
  intros R P NR.
  assert (NE : p <> "") by (apply rooted_nonempty, R).
  rewrite Join3, Join2 in * by exact NE.
  rewrite Clean_snoc_plain; [| now apply rooted_app | exact P].
  apply String.eqb_neq in NR. rewrite NR.
  now rewrite !append_assoc.
Qed.

End PathFacts.

Section PathMapper.

Import PathFacts.

(** X2: under a root that starts with a separator, the value path of a key
    whose last element is neither ["."] nor ["/"] is the directory path of
    the key's directory followed by ["."] and the key's last element,
    unless that directory is the root of the store. *)
Theorem nodePath_in_dir (b : EtcdBackend) (key : string) :
  Filepath.rooted (path b) = true ->
  Filepath.Base key <> "." -> Filepath.Base key <> "/" ->
  Filepath.Join [path b; Filepath.Dir key] <> "/" ->
  nodePath b key =
  nodePathDir b (Filepath.Dir key) ++ EtcdNodeFilePrefix ++ Filepath.Base key.
Proof.
  intros R N1 N2 NR. unfold nodePath, nodePathDir.
  rewrite Join3_plain; [| exact R | now apply file_element_plain | exact NR].
  now rewrite !FilepathFacts.append_assoc.
Qed.

(** X3: under the same conditions the lock-queue path of a key is the
    directory path of the key's directory followed by ["_"] and the key's
    last element: the queue lies beside the value node, under a name the
    store hides from listings. *)
Theorem nodePathLock_in_dir (b : EtcdBackend) (key : string) :
  Filepath.rooted (path b) = true ->
  Filepath.Base key <> "/" ->
  Filepath.Join [path b; Filepath.Dir key] <> "/" ->
  nodePathLock b key =
  nodePathDir b (Filepath.Dir key) ++ EtcdNodeLockPrefix ++ Filepath.Base key.
Proof.
  intros R N2 NR. unfold nodePathLock, nodePathDir.
  assert (NE : path b <> "") by (apply rooted_nonempty, R).
  rewrite Join3, Join2 in * by exact NE.
  replace ((path b ++ "/" ++ Filepath.Dir key) ++
           "/" ++ EtcdNodeLockPrefix ++ Filepath.Base key ++ "/")
    with (((path b ++ "/" ++ Filepath.Dir key) ++
           "/" ++ EtcdNodeLockPrefix ++ Filepath.Base key) ++ "/")
    by now rewrite !FilepathFacts.append_assoc.
  rewrite Clean_trailing_slash by (destruct (path b); discriminate).
  rewrite Clean_snoc_plain;
    [| now apply rooted_app | now apply lock_element_plain].
  apply String.eqb_neq in NR. rewrite NR.
  now rewrite !FilepathFacts.append_assoc.
Qed.

(** X5: a separator at the end of the prefix does not change the
    directory path: [List] of ["a/"] and of ["a"] read the same directory. *)
Theorem nodePathDir_trailing_slash (b : EtcdBackend) (prefix : string) :
  path b <> "" ->
  nodePathDir b (prefix ++ "/") = nodePathDir b prefix.
Proof.
  intros NE. unfold nodePathDir. rewrite !Join2 by exact NE.
  replace (path b ++ "/" ++ prefix ++ "/")
    with ((path b ++ "/" ++ prefix) ++ "/")
    by now rewrite !FilepathFacts.append_assoc.
  rewrite Clean_trailing_slash; [reflexivity|].
  destruct (path b); [contradiction | discriminate].
Qed.

(** X6: a directory path ends with exactly one separator, except when the
    joined path is the root, where it is ["//"]. *)
Theorem nodePathDir_slashes (b : EtcdBackend) (key : string) :
  nodePathDir b key = "//"
  \/ exists d, nodePathDir b key = d ++ "/"
               /\ Strings.ends_with_slash d = false.
Proof.
  unfold nodePathDir.
  destruct (String.eqb_spec (path b) "") as [E|NE].
  - rewrite E. cbn [Filepath.Join].
    destruct (String.eqb key "").
    + right. now exists "".
    + cbn [Strings.Join].
      destruct (Clean_root_or_no_trailing_slash key) as [->|Q];
        [now left | right; eexists; split; [reflexivity | exact Q]].
  - rewrite Join2 by exact NE.
    destruct (Clean_root_or_no_trailing_slash (path b ++ "/" ++ key))
      as [->|Q]; [now left | right; eexists; split; [reflexivity | exact Q]].
Qed.


(** The lock element splits into an element that starts with the lock
    prefix, followed by empty ones. *)
Lemma split_lock_element_prefix key :
  exists r zs,
    Filepath.split (EtcdNodeLockPrefix ++ Filepath.Base key ++ "/")
    = (EtcdNodeLockPrefix ++ r) :: zs
    /\ plain (EtcdNodeLockPrefix ++ r) /\ Forall (eq "") zs.
Proof.
  destruct (String.eqb_spec (Filepath.Base key) "/") as [E|N].
  - rewrite E. exists "", [""; ""]. repeat split; try discriminate.
    now repeat constructor.
  - exists (Filepath.Base key), [""].
    assert (P : plain (EtcdNodeLockPrefix ++ Filepath.Base key))
      by (apply lock_element_plain, N).
    split; [|split; [exact P | now repeat constructor]].
    replace (EtcdNodeLockPrefix ++ Filepath.Base key ++ "/")
      with ((EtcdNodeLockPrefix ++ Filepath.Base key) ++ "/" ++ "")
      by now rewrite !FilepathFacts.append_assoc.
    rewrite FilepathFacts.split_app_slash.
    assert (E : Filepath.split (EtcdNodeLockPrefix ++ Filepath.Base key)
                = [EtcdNodeLockPrefix ++ Filepath.Base key])
      by (apply FilepathFacts.split_no_slash, P).
    now rewrite E.
Qed.

Lemma nodePath_last_element (b : EtcdBackend) (key : string) :
  Filepath.Base key <> "." -> Filepath.Base key <> "/" ->
  Filepath.after_last_slash (nodePath b key)
  = EtcdNodeFilePrefix ++ Filepath.Base key.
Proof.
  intros N1 N2. unfold nodePath.
  assert (P : plain (EtcdNodeFilePrefix ++ Filepath.Base key))
    by (apply file_element_plain; assumption).
  assert (N : EtcdNodeFilePrefix ++ Filepath.Base key <> "") by apply P.
  destruct (FilepathFacts.Join_last [path b; Filepath.Dir key] N)
    as [xs' J].
  cbn [app] in J. rewrite J.
  apply Clean_last_element
    with (cs := flat_map Filepath.split xs') (zs := []).
  - rewrite FilepathFacts.split_Join. f_equal.
    apply FilepathFacts.split_no_slash, P.
  - exact P.
  - constructor.
Qed.

Lemma nodePathLock_last_element (b : EtcdBackend) (key : string) :
  exists r,
    Filepath.after_last_slash (nodePathLock b key) = EtcdNodeLockPrefix ++ r.
Proof.
  destruct (split_lock_element_prefix key) as (r & zs & S & P & Z).
  exists r. unfold nodePathLock.
  assert (N : EtcdNodeLockPrefix ++ Filepath.Base key ++ "/" <> "")
    by discriminate.
  destruct (FilepathFacts.Join_last [path b; Filepath.Dir key] N)
    as [xs' J].
  cbn [app] in J. rewrite J.
  apply Clean_last_element
    with (cs := flat_map Filepath.split xs') (zs := zs).
  - now rewrite FilepathFacts.split_Join, S.
  - exact P.
  - exact Z.
Qed.

(** X4: the value path of a key whose last element is neither ["."] nor
    ["/"] is never the lock-queue path of any key: their last elements
    start with ["."] and with ["_"]. *)
Theorem value_and_lock_paths_differ (b : EtcdBackend) (key key' : string) :
  Filepath.Base key <> "." -> Filepath.Base key <> "/" ->
  nodePath b key <> nodePathLock b key'.
Proof.
  intros N1 N2 E.
  assert (L : Filepath.after_last_slash (nodePath b key)
              = EtcdNodeFilePrefix ++ Filepath.Base key)
    by (apply nodePath_last_element; assumption).
  destruct (nodePathLock_last_element b key') as [r L'].
  rewrite E, L' in L. discriminate.
Qed.

End PathMapper.

Section KVMore.
Context {W : Type} `{Client W}.

(** X7: [Delete] makes one non-recursive delete of the value path; it
    returns no error exactly when the delete succeeds or fails with the
    missing-key error, and returns any other error as it is. *)
Theorem Delete_errors (c : EtcdBackend) (key : string) (s : State W) r w' :
  perform (CallDelete (nodePath c key) false) (world s) = (r, w') ->
  (fst (Delete c key s) = None
   <-> (exists response, r = inl response)
       \/ exists msg, r = inr (EtcdError 100 msg))
  /\ (forall err, r = inr err -> errorIsMissingKey err = false ->
      fst (Delete c key s) = Some err)
  /\ calls (snd (Delete c key s))
     = (calls s ++ [CallDelete (nodePath c key) false])%list.
Proof.
  intros E.
  assert (D : Delete c key s =
    (match r with
     | inl _ => None
     | inr err => if errorIsMissingKey err then None else Some err
     end,
     mkState w' (trace s ++ [Called (CallDelete (nodePath c key) false);
                             Measured ["etcd"; "delete"]]))).
  { unfold Delete, measured, bind, call, emit, ret. rewrite E.
    destruct r as [response|err]; [|destruct (errorIsMissingKey err)];
      cbn; now rewrite <- app_assoc. }
  rewrite D. cbn [fst snd]. repeat split.
  - destruct r as [response|err]; [left; now exists response|].
    destruct (errorIsMissingKey err) eqn:M; [|discriminate].
    intros _. right. apply errorIsMissingKey_spec in M as [msg ->].
    now exists msg.
  - intros [[response ->]|[msg ->]]; reflexivity.
  - intros err -> M. now rewrite M.
  - unfold calls. cbn [trace]. rewrite flat_map_app. cbn.
    reflexivity.
Qed.

(** X8: the value node that [Put] writes for a key is listed by [List] of
    the key's directory under the key's last element. *)
Theorem List_shows_put_key (c : EtcdBackend) (key : string) (s : State W)
        response w' i node :
  Filepath.rooted (path c) = true ->
  Filepath.Base key <> "." -> Filepath.Base key <> "/" ->
  Filepath.Join [path c; Filepath.Dir key] <> "/" ->
  perform (CallGet (nodePathDir c (Filepath.Dir key)) true false) (world s)
  = (inl response, w') ->
  Forall (fun node => exists name,
            etcd.Key node = nodePathDir c (Filepath.Dir key) ++ name
            /\ name <> "")
         (etcd.Nodes (etcd.RNode response)) ->
  nth_error (etcd.Nodes (etcd.RNode response)) i = Some node ->
  etcd.Dir node = false ->
  etcd.Key node = nodePath c key ->
  exists out,
    fst (List c (Filepath.Dir key) s) = Return (Some out, None)
    /\ nth_error out i = Some (Filepath.Base key).
Proof.
  intros R N1 N2 NR E F N D K.
  erewrite List_run by exact E.
  destruct (listNames_total _ F) as [out L]. rewrite L.
  exists out. split; [reflexivity|].
  destruct (listNames_nth _ _ _ L N) as (name & LN & Hn).
  rewrite Hn. f_equal.
  destruct node as [k v d ns]. cbn [etcd.Key etcd.Dir] in D, K. subst d k.
  unfold nodePath in LN.
  rewrite PathFacts.Join3_plain in LN;
    [| exact R | now apply PathFacts.file_element_plain | exact NR].
  fold (nodePathDir c (Filepath.Dir key)) in LN.
  rewrite <- FilepathFacts.append_assoc in LN.
  change ((Filepath.Join [path c; Filepath.Dir key] ++ "/"))
    with (nodePathDir c (Filepath.Dir key)) in LN.
  rewrite listName_child in LN. now injection LN.
Qed.

Lemma TrimPrefix_root name :
  no_slash name = true -> Strings.TrimPrefix ("/" ++ name) "//" = "/" ++ name.
Proof.
  intros NS. unfold Strings.TrimPrefix, Strings.HasPrefix.
  destruct name as [|ch name]; [reflexivity|].
  unfold no_slash in NS. cbn [list_ascii_of_string existsb] in NS.
  apply negb_true_iff, orb_false_elim in NS as [C _].
  cbn [append String.prefix].
  destruct (ascii_dec "/" "/"); [|congruence].
  destruct (ascii_dec "/" ch) as [<-|_]; [discriminate C | reflexivity].
Qed.

Lemma listNames_root (nodes : list etcd.Node) (names : list string) :
  Forall2 (fun node name =>
             etcd.Key node = "/" ++ name /\ no_slash name = true)
          nodes names ->
  listNames "//" nodes =
  Some (map (fun '(node, name) =>
               if etcd.Dir node then "/" ++ name ++ "/" else name)
            (combine nodes names)).
Proof.
  induction 1 as [|node name nodes names [K NS] _ IH]; [reflexivity|].
  cbn [listNames combine map]. rewrite IH.
  unfold listName. rewrite K, TrimPrefix_root by exact NS.
  destruct (etcd.Dir node); reflexivity.
Qed.

(** X9: when the directory path is the root of the store, the path that
    [List] trims is ["//"], which no child key starts with: a file child
    ["/" ++ name] is listed as [name], its leaf prefix still on, and a
    directory child as ["/" ++ name ++ "/"]. *)
Theorem List_at_root (c : EtcdBackend) (prefix : string) (s : State W)
        response w' names :
  Filepath.Join [path c; prefix] = "/" ->
  perform (CallGet "//" true false) (world s) = (inl response, w') ->
  Forall2 (fun node name =>
             etcd.Key node = "/" ++ name /\ no_slash name = true)
          (etcd.Nodes (etcd.RNode response)) names ->
  fst (List c prefix s) =
  Return (Some (map (fun '(node, name) =>
                       if etcd.Dir node then "/" ++ name ++ "/" else name)
                    (combine (etcd.Nodes (etcd.RNode response)) names)),
          None).
Proof.
  intros J E F.
  assert (P : nodePathDir c prefix = "//")
    by (unfold nodePathDir; now rewrite J).
  rewrite <- P in E. erewrite List_run by exact E.
  rewrite P. erewrite listNames_root by exact F. reflexivity.
Qed.

End KVMore.

Section LockMore.
Context {W : Type} `{Client W}.

Lemma getSemaphoreKey_listing (c : EtcdLock) (s : State W) listing w' :
  perform (CallGet (semaphoreDirKey c) true false) (world s)
  = (inl listing, w') ->
  getSemaphoreKey c s =
  ((headKey listing, headValue listing, etcd.EtcdIndex listing, None),
   mkState w' (trace s ++ [Called (CallGet (semaphoreDirKey c) true false)])).
Proof.
  intros E. erewrite getSemaphoreKey_run by exact E.
  unfold headKey, headValue. now destruct (etcd.Nodes _).
Qed.

Lemma getSemaphoreKey_error (c : EtcdLock) (s : State W) err w' :
  perform (CallGet (semaphoreDirKey c) true false) (world s)
  = (inr err, w') ->
  getSemaphoreKey c s =
  (("", "", 0%Z, Some err),
   mkState w' (trace s ++ [Called (CallGet (semaphoreDirKey c) true false)])).
Proof. intros E. now erewrite getSemaphoreKey_run by exact E. Qed.

Lemma isHeld_listing (c : EtcdLock) (s : State W) listing w' :
  semaphoreKey c <> "" ->
  perform (CallGet (semaphoreDirKey c) true false) (world s)
  = (inl listing, w') ->
  isHeld c s =
  ((String.eqb (semaphoreKey c) (headKey listing), None),
   mkState w' (trace s ++ [Called (CallGet (semaphoreDirKey c) true false)])).
Proof.
  intros N E. erewrite isHeld_run by eassumption.
  unfold headKey. now destruct (etcd.Nodes _).
Qed.

Lemma assertNotHeld_fresh (c : EtcdLock) (s : State W) :
  semaphoreKey c = "" -> assertNotHeld c s = (None, s).
Proof.
  intros E. unfold assertNotHeld.
  erewrite bind_run by (apply isHeld_empty; exact E). reflexivity.
Qed.

(** The first part of [Lock], up to the waiting loop. *)
Lemma Lock_enqueued (fuel : nat) (c : EtcdLock) (s s1 : State W)
      created w2 listing w3 :
  assertNotHeld c s = (None, s1) ->
  perform (CallCreateInOrder (semaphoreDirKey c) (value c) EtcdLockTTL)
          (world s1) = (inl created, w2) ->
  perform (CallGet (semaphoreDirKey c) true false) w2 = (inl listing, w3) ->
  Lock fuel c s =
  (let c' := setSemaphoreKey c (etcd.Key (etcd.RNode created)) in
   let (r, s') :=
     lockLoop fuel c' (etcd.Key (etcd.RNode created)) (headKey listing)
       (etcd.EtcdIndex listing)
       (mkState w3
          (trace s1 ++
           [Called (CallCreateInOrder (semaphoreDirKey c) (value c)
                                      EtcdLockTTL);
            Called (CallGet (semaphoreDirKey c) true false)])) in
   ((r, c'), s')).
Proof.
  intros A Cr G. unfold Lock.
  erewrite bind_run by exact A. cbn beta iota.
  unfold addSemaphoreKey.
  erewrite bind_run.
  2:{ erewrite bind_run by (apply call_reply; exact Cr). reflexivity. }
  cbn beta iota zeta.
  erewrite bind_run.
  2:{ apply getSemaphoreKey_listing. exact G. }
  cbn beta iota. cbn [trace]. rewrite <- app_assoc. cbn [app].
  unfold bind, ret. reflexivity.
Qed.

Lemma lockLoop_head (fuel : nat) (c : EtcdLock) (key : string) (index : Z)
      (s : State W) :
  lockLoop fuel c key key index s =
  (Some (Some (mkLostChannel (semaphoreKey c) (uint64_succ index)), None), s).
Proof. destruct fuel; cbn [lockLoop]; now rewrite String.eqb_refl. Qed.

Lemma lockLoop_watch_error (fuel : nat) (c : EtcdLock) (key current : string)
      (index : Z) (s : State W) err w1 :
  key <> current ->
  perform (CallWatch (semaphoreDirKey c) (uint64_succ index) true true)
          (world s) = (inr err, w1) ->
  isEtcdError err = true ->
  lockLoop (S fuel) c key current index s =
  (Some (None, Some err),
   mkState w1
     (trace s ++
      [Called (CallWatch (semaphoreDirKey c) (uint64_succ index) true true)])).
Proof.
  intros N Wt Ne. cbn [lockLoop].
  apply String.eqb_neq in N. rewrite N.
  unfold bind, call, ret. rewrite Wt. now rewrite Ne.
Qed.

Lemma lockLoop_removed (fuel : nat) (c : EtcdLock) (key current : string)
      (index : Z) (s : State W) event w1 :
  key <> current ->
  perform (CallWatch (semaphoreDirKey c) (uint64_succ index) true true)
          (world s) = (inl event, w1) ->
  removes key event = true ->
  lockLoop (S fuel) c key current index s =
  (Some (None, Some EtcdSemaphoreKeyRemovedError),
   mkState w1
     (trace s ++
      [Called (CallWatch (semaphoreDirKey c) (uint64_succ index) true true)])).
Proof.
  intros N Wt R. cbn [lockLoop].
  apply String.eqb_neq in N. rewrite N.
  unfold bind, call, ret. rewrite Wt. unfold removes in R. now rewrite R.
Qed.

Lemma lockLoop_next (fuel : nat) (c : EtcdLock) (key current : string)
      (index : Z) (s : State W) event w1 listing w2 :
  key <> current ->
  perform (CallWatch (semaphoreDirKey c) (uint64_succ index) true true)
          (world s) = (inl event, w1) ->
  removes key event = false ->
  perform (CallGet (semaphoreDirKey c) true false) w1 = (inl listing, w2) ->
  lockLoop (S fuel) c key current index s =
  lockLoop fuel c key (headKey listing) (etcd.EtcdIndex listing)
    (mkState w2
       (trace s ++
        [Called (CallWatch (semaphoreDirKey c) (uint64_succ index) true true);
         Called (CallGet (semaphoreDirKey c) true false)])).
Proof.
  intros N Wt R G. cbn [lockLoop].
  apply String.eqb_neq in N. rewrite N.
  erewrite bind_run by (apply call_reply; exact Wt). cbn beta iota.
  unfold removes in R. rewrite R.
  erewrite bind_run by (apply getSemaphoreKey_listing; exact G).
  cbn beta iota. cbn [trace]. rewrite <- app_assoc. reflexivity.
Qed.

(** X11: [Lock] on a handle fresh from [LockWith] creates an in-order
    entry in the lock-queue directory with the holder value and a TTL of 15
    seconds, reads the queue, and when its entry is the head returns at
    once, without a watch, the channel of a watcher of that entry from the
    index after the listing's. *)
Theorem Lock_fresh_acquires (fuel : nat) (b : EtcdBackend)
        (key holder : string) (s : State W) created w1 listing w2 :
  let c := fst (LockWith b key holder) in
  perform (CallCreateInOrder (nodePathLock b key) holder 15) (world s)
  = (inl created, w1) ->
  perform (CallGet (nodePathLock b key) true false) w1 = (inl listing, w2) ->
  headKey listing = etcd.Key (etcd.RNode created) ->
  Lock fuel c s =
  ((Some (Some (mkLostChannel (etcd.Key (etcd.RNode created))
                              (uint64_succ (etcd.EtcdIndex listing))), None),
    setSemaphoreKey c (etcd.Key (etcd.RNode created))),
   mkState w2
     (trace s ++
      [Called (CallCreateInOrder (nodePathLock b key) holder 15);
       Called (CallGet (nodePathLock b key) true false)])).
Proof.
  intros c Cr G Hd.
  erewrite Lock_enqueued;
    [| apply assertNotHeld_fresh; reflexivity | exact Cr | exact G].
  cbv zeta. rewrite Hd, lockLoop_head. reflexivity.
Qed.

(** X12: when the creation of the queue entry fails, [Lock] returns that
    error and a nil channel, makes no further call and leaves the handle
    as it was. *)
Theorem Lock_create_error (fuel : nat) (c : EtcdLock) (s s1 : State W)
        err w2 :
  assertNotHeld c s = (None, s1) ->
  perform (CallCreateInOrder (semaphoreDirKey c) (value c) EtcdLockTTL)
          (world s1) = (inr err, w2) ->
  Lock fuel c s =
  ((Some (None, Some err), c),
   mkState w2
     (trace s1 ++
      [Called (CallCreateInOrder (semaphoreDirKey c) (value c)
                                 EtcdLockTTL)])).
Proof.
  intros A Cr. unfold Lock.
  erewrite bind_run by exact A. cbn beta iota.
  unfold addSemaphoreKey.
  erewrite bind_run.
  2:{ erewrite bind_run by (apply call_reply; exact Cr). reflexivity. }
  reflexivity.
Qed.

End LockMore.

Section LockMore2.
Context {W : Type} `{Client W}.

(** X16: [Unlock] on a handle that does not hold the lock returns
    [EtcdLockNotHeldError] and deletes nothing: without any call when the
    handle has no entry, after the one read of the queue when another entry
    is the head; an error of that read is returned as it is. *)
Theorem Unlock_not_held (c : EtcdLock) (s : State W) :
  (semaphoreKey c = "" -> Unlock c s = (Some EtcdLockNotHeldError, s))
  /\ (forall listing w',
        semaphoreKey c <> "" ->
        perform (CallGet (semaphoreDirKey c) true false) (world s)
        = (inl listing, w') ->
        headKey listing <> semaphoreKey c ->
        Unlock c s =
        (Some EtcdLockNotHeldError,
         mkState w' (trace s ++
                     [Called (CallGet (semaphoreDirKey c) true false)])))
  /\ (forall err w',
        semaphoreKey c <> "" ->
        perform (CallGet (semaphoreDirKey c) true false) (world s)
        = (inr err, w') ->
        Unlock c s =
        (Some err,
         mkState w' (trace s ++
                     [Called (CallGet (semaphoreDirKey c) true false)]))).
Proof.
  repeat split.
  - intros E. unfold Unlock, assertHeld.
    erewrite bind_run.
    2:{ erewrite bind_run by (apply isHeld_empty; exact E). reflexivity. }
    reflexivity.
  - intros listing w' N G Hd. unfold Unlock, assertHeld.
    erewrite bind_run.
    2:{ erewrite bind_run by (apply isHeld_listing; eassumption).
        cbn beta iota.
        destruct (String.eqb_spec (semaphoreKey c) (headKey listing)) as [Q|_];
          [now contradiction Hd | reflexivity]. }
    reflexivity.
  - intros err w' N G. unfold Unlock, assertHeld.
    erewrite bind_run.
    2:{ erewrite bind_run by (apply isHeld_run; eassumption). reflexivity. }
    reflexivity.
Qed.

(** X17: [Value] reports the head of the queue, whoever created it: held
    with the head's value when the listing has a head, not held for an
    empty listing, the error of the read otherwise; two handles on the same
    queue directory report the same. *)
Theorem LockValue_reports_head (c c' : EtcdLock) (s : State W) r w' :
  perform (CallGet (semaphoreDirKey c) true false) (world s) = (r, w') ->
  (forall listing, r = inl listing ->
     fst (LockValue c s) =
     if String.eqb (headKey listing) "" then (false, "", None)
     else (true, headValue listing, None))
  /\ (forall err, r = inr err -> fst (LockValue c s) = (false, "", Some err))
  /\ (semaphoreDirKey c' = semaphoreDirKey c ->
      LockValue c' s = LockValue c s).
Proof.
  intros E. repeat split.
  - intros listing ->. unfold LockValue.
    erewrite bind_run by (apply getSemaphoreKey_listing; exact E).
    cbn beta iota. now destruct (String.eqb (headKey listing) "").
  - intros err ->. unfold LockValue.
    erewrite bind_run by (apply getSemaphoreKey_error; exact E).
    reflexivity.
  - intros D. unfold LockValue, getSemaphoreKey. now rewrite D.
Qed.

(** X18: [Lock] on a fresh handle followed by [Unlock] on the handle that
    [Lock] leaves deletes exactly the entry that [Lock] created, and
    returns the error of that delete. *)
Theorem Lock_then_Unlock (fuel : nat) (b : EtcdBackend)
        (key holder : string) (s : State W)
        created w1 listing w2 listing' w3 d w4 :
  let c := fst (LockWith b key holder) in
  let k := etcd.Key (etcd.RNode created) in
  perform (CallCreateInOrder (nodePathLock b key) holder 15) (world s)
  = (inl created, w1) ->
  perform (CallGet (nodePathLock b key) true false) w1 = (inl listing, w2) ->
  headKey listing = k ->
  k <> "" ->
  perform (CallGet (nodePathLock b key) true false) w2 = (inl listing', w3) ->
  headKey listing' = k ->
  perform (CallDelete k false) w3 = (d, w4) ->
  (c' <- (r <- Lock fuel c ;; ret (snd r)) ;; Unlock c') s =
  (replyError d,
   mkState w4
     (trace s ++
      [Called (CallCreateInOrder (nodePathLock b key) holder 15);
       Called (CallGet (nodePathLock b key) true false);
       Called (CallGet (nodePathLock b key) true false);
       Called (CallDelete k false)])).
Proof.
  intros c k Cr G Hd Nk G' Hd' D.
  erewrite bind_run.
  2:{ erewrite bind_run.
      2:{ erewrite Lock_enqueued;
            [| apply assertNotHeld_fresh; reflexivity | exact Cr | exact G].
          cbv zeta. rewrite Hd. fold k. rewrite lockLoop_head. reflexivity. }
      reflexivity. }
  cbn [snd]. unfold Unlock, assertHeld.
  erewrite bind_run.
  2:{ erewrite bind_run.
      2:{ apply isHeld_listing; [exact Nk | exact G']. }
      cbn beta iota. cbn [semaphoreKey setSemaphoreKey].
      rewrite Hd'. fold k. rewrite String.eqb_refl. reflexivity. }
  cbn beta iota.
  erewrite bind_run by (apply call_reply; exact D).
  cbn [trace]. rewrite <- !app_assoc. cbn [app]. now destruct d.
Qed.

End LockMore2.

(** ** Any round of the waiting loop *)

Section LockRounds.

Context {W : Type} `{Client W}.

(** The waiting loop goes through the rounds of [waitsThrough]. *)
Lemma lockLoop_waitsThrough (c : EtcdLock) (key : string) n idx w cs idx' w' :
  waitsThrough (semaphoreDirKey c) key n idx w cs idx' w' ->
  forall (fuel : nat) (current : string) (t : list Event),
    key <> current ->
    exists current',
      key <> current'
      /\ lockLoop (n + fuel) c key current idx (mkState w t)
         = lockLoop fuel c key current' idx'
             (mkState w' (t ++ map Called cs)).
Proof.
  induction 1 as [idx w|n idx w event w1 listing w2 cs idx' w'
                          Wt Re G Hd _ IH];
    intros fuel current t N.
  - exists current. split; [exact N|]. cbn [Nat.add map].
    now rewrite app_nil_r.
  - destruct (IH fuel (headKey listing)
                (t ++ [Called (CallWatch (semaphoreDirKey c)
                                 (uint64_succ idx) true true);
                       Called (CallGet (semaphoreDirKey c) true false)])%list)
      as (current' & N' & L); [congruence|].
    exists current'. split; [exact N'|].
    cbn [Nat.add].
    erewrite lockLoop_next; [| exact N | exact Wt | exact Re | exact G].
    cbn [trace]. rewrite L. cbn [map]. now rewrite <- app_assoc.
Qed.

(** [Lock] up to the end of the rounds of [waitsThrough]. *)
Lemma Lock_waitsThrough (fuel n : nat) (c : EtcdLock) (s s1 : State W)
      created w2 listing w3 cs idx' w' :
  assertNotHeld c s = (None, s1) ->
  perform (CallCreateInOrder (semaphoreDirKey c) (value c) EtcdLockTTL)
          (world s1) = (inl created, w2) ->
  perform (CallGet (semaphoreDirKey c) true false) w2 = (inl listing, w3) ->
  headKey listing <> etcd.Key (etcd.RNode created) ->
  waitsThrough (semaphoreDirKey c) (etcd.Key (etcd.RNode created)) n
               (etcd.EtcdIndex listing) w3 cs idx' w' ->
  exists current',
    etcd.Key (etcd.RNode created) <> current'
    /\ Lock (n + fuel) c s =
       (let c' := setSemaphoreKey c (etcd.Key (etcd.RNode created)) in
        let (r, s') :=
          lockLoop fuel c' (etcd.Key (etcd.RNode created)) current' idx'
            (mkState w'
               (trace s1 ++
                Called (CallCreateInOrder (semaphoreDirKey c) (value c)
                                          EtcdLockTTL)
                :: Called (CallGet (semaphoreDirKey c) true false)
                :: map Called cs)) in
        ((r, c'), s')).
Proof.
  intros A Cr G Nh Wa.
  destruct (@lockLoop_waitsThrough
              (setSemaphoreKey c (etcd.Key (etcd.RNode created)))
              (etcd.Key (etcd.RNode created)) n (etcd.EtcdIndex listing)
              w3 cs idx' w' Wa fuel (headKey listing)
              (trace s1 ++
               [Called (CallCreateInOrder (semaphoreDirKey c) (value c)
                                          EtcdLockTTL);
                Called (CallGet (semaphoreDirKey c) true false)])%list)
    as (current' & N' & L); [congruence|].
  exists current'. split; [exact N'|].
  erewrite Lock_enqueued by eassumption. cbv zeta.
  rewrite L. rewrite <- app_assoc. reflexivity.
Qed.

(** C1, as the code has it: when a watch of a waiting [Lock] call (its
    queue entry is not the head), in whatever round of the wait, fails
    with an error that is not an etcd error, [Lock] deletes its own queue
    entry and returns a nil channel with the error of that delete: no
    error when the delete succeeds. *)
Theorem Lock_cancelled_returns_delete_error (fuel n : nat) (c : EtcdLock)
        (s s1 : State W) created w2 listing w3 cs idx' w'
        cancelErr w4 d w5 :
  assertNotHeld c s = (None, s1) ->
  perform (CallCreateInOrder (semaphoreDirKey c) (value c) EtcdLockTTL)
          (world s1) = (inl created, w2) ->
  perform (CallGet (semaphoreDirKey c) true false) w2 = (inl listing, w3) ->
  headKey listing <> etcd.Key (etcd.RNode created) ->
  waitsThrough (semaphoreDirKey c) (etcd.Key (etcd.RNode created)) n
               (etcd.EtcdIndex listing) w3 cs idx' w' ->
  perform (CallWatch (semaphoreDirKey c) (uint64_succ idx') true true) w'
  = (inr cancelErr, w4) ->
  isEtcdError cancelErr = false ->
  perform (CallDelete (etcd.Key (etcd.RNode created)) false) w4 = (d, w5) ->
  Lock (n + S fuel) c s =
  ((Some (None, replyError d),
    setSemaphoreKey c (etcd.Key (etcd.RNode created))),
   mkState w5
     (trace s1 ++
      Called (CallCreateInOrder (semaphoreDirKey c) (value c) EtcdLockTTL)
      :: Called (CallGet (semaphoreDirKey c) true false)
      :: map Called cs ++
      [Called (CallWatch (semaphoreDirKey c) (uint64_succ idx') true true);
       Called (CallDelete (etcd.Key (etcd.RNode created)) false)])).
Proof.
  intros A Cr G Nh Wa Wt Ne D.
  destruct (@Lock_waitsThrough (S fuel) n c s s1 created w2 listing w3 cs
              idx' w' A Cr G Nh Wa) as (current' & N' & L).
  rewrite L. cbv zeta.
  erewrite lockLoop_cancelled; [| exact N' | exact Wt | exact Ne | exact D].
  cbn [trace]. rewrite <- app_assoc. reflexivity.
Qed.

(** X13: when a watch of a waiting [Lock] call, in whatever round of the
    wait, fails with an etcd error, [Lock] returns that error without
    deleting its queue entry: the entry stays in the queue, recorded in
    the handle. *)
Theorem Lock_store_error_leaves_entry (fuel n : nat) (c : EtcdLock)
        (s s1 : State W) created w2 listing w3 cs idx' w' err w4 :
  assertNotHeld c s = (None, s1) ->
  perform (CallCreateInOrder (semaphoreDirKey c) (value c) EtcdLockTTL)
          (world s1) = (inl created, w2) ->
  perform (CallGet (semaphoreDirKey c) true false) w2 = (inl listing, w3) ->
  headKey listing <> etcd.Key (etcd.RNode created) ->
  waitsThrough (semaphoreDirKey c) (etcd.Key (etcd.RNode created)) n
               (etcd.EtcdIndex listing) w3 cs idx' w' ->
  perform (CallWatch (semaphoreDirKey c) (uint64_succ idx') true true) w'
  = (inr err, w4) ->
  isEtcdError err = true ->
  Lock (n + S fuel) c s =
  ((Some (None, Some err),
    setSemaphoreKey c (etcd.Key (etcd.RNode created))),
   mkState w4
     (trace s1 ++
      Called (CallCreateInOrder (semaphoreDirKey c) (value c) EtcdLockTTL)
      :: Called (CallGet (semaphoreDirKey c) true false)
      :: map Called cs ++
      [Called (CallWatch (semaphoreDirKey c) (uint64_succ idx') true true)])).
Proof.
  intros A Cr G Nh Wa Wt Ne.
  destruct (@Lock_waitsThrough (S fuel) n c s s1 created w2 listing w3 cs
              idx' w' A Cr G Nh Wa) as (current' & N' & L).
  rewrite L. cbv zeta.
  erewrite lockLoop_watch_error; [| exact N' | exact Wt | exact Ne].
  cbn [trace]. rewrite <- app_assoc. reflexivity.
Qed.

(** X14: when a watch of a waiting [Lock] call, in whatever round of the
    wait, reports the deletion or the expiry of the call's own entry,
    [Lock] returns [EtcdSemaphoreKeyRemovedError] without reading the
    queue again and without a delete. *)
Theorem Lock_entry_removed (fuel n : nat) (c : EtcdLock)
        (s s1 : State W) created w2 listing w3 cs idx' w' event w4 :
  assertNotHeld c s = (None, s1) ->
  perform (CallCreateInOrder (semaphoreDirKey c) (value c) EtcdLockTTL)
          (world s1) = (inl created, w2) ->
  perform (CallGet (semaphoreDirKey c) true false) w2 = (inl listing, w3) ->
  headKey listing <> etcd.Key (etcd.RNode created) ->
  waitsThrough (semaphoreDirKey c) (etcd.Key (etcd.RNode created)) n
               (etcd.EtcdIndex listing) w3 cs idx' w' ->
  perform (CallWatch (semaphoreDirKey c) (uint64_succ idx') true true) w'
  = (inl event, w4) ->
  etcd.Key (etcd.RNode event) = etcd.Key (etcd.RNode created) ->
  etcd.Action event = "delete" \/ etcd.Action event = "expire" ->
  Lock (n + S fuel) c s =
  ((Some (None, Some EtcdSemaphoreKeyRemovedError),
    setSemaphoreKey c (etcd.Key (etcd.RNode created))),
   mkState w4
     (trace s1 ++
      Called (CallCreateInOrder (semaphoreDirKey c) (value c) EtcdLockTTL)
      :: Called (CallGet (semaphoreDirKey c) true false)
      :: map Called cs ++
      [Called (CallWatch (semaphoreDirKey c) (uint64_succ idx') true true)])).
Proof.
  intros A Cr G Nh Wa Wt Ek Ea.
  destruct (@Lock_waitsThrough (S fuel) n c s s1 created w2 listing w3 cs
              idx' w' A Cr G Nh Wa) as (current' & N' & L).
  rewrite L. cbv zeta.
  erewrite lockLoop_removed; [| exact N' | exact Wt |].
  - cbn [trace]. rewrite <- app_assoc. reflexivity.
  - unfold removes, isRemoval. rewrite Ek, String.eqb_refl.
    destruct Ea as [-> | ->]; reflexivity.
Qed.

End LockRounds.

(** ** Waiting and watching against a script *)

Lemma script_reply (c : Call) (r : Reply) (rest : list Reply) :
  perform c (mkScript (r :: rest)) = (r, mkScript rest).
Proof. reflexivity. Qed.



Lemma sleeps_app t u : sleeps (t ++ u) = (sleeps t + sleeps u)%nat.
Proof. unfold sleeps. now rewrite filter_app, length_app. Qed.

Lemma calls_app {W} (w w' : W) t u :
  calls (mkState w (t ++ u)) = (calls (mkState w' t) ++ calls (mkState w' u))%list.
Proof. unfold calls. cbn [trace]. apply flat_map_app. Qed.

(** The watcher reads through replies that neither stop it nor exhaust its
    retries. *)
Lemma watchLoop_script (key : string) (l : list Reply) :
  Forall (fun r => stops key r = false) l ->
  forall (tail : list Reply) (fuel : nat) (idx retries : Z) (t : list Event),
    (Z.of_nat (failures l) < retries)%Z ->
    (length l <= fuel)%nat ->
    exists idx' t',
      watchLoop fuel key idx retries (mkState (mkScript (l ++ tail)) t)
      = watchLoop (fuel - length l) key idx'
          (retries - Z.of_nat (failures l)) (mkState (mkScript tail) t')
      /\ sleeps t' = (sleeps t + failures l)%nat
      /\ length (calls (mkState (mkScript tail) t'))
         = (length (calls (mkState (mkScript tail) t)) + length l)%nat.
Proof.
  induction 1 as [|r l S _ IH]; intros tail fuel idx retries t R Fu.
  - exists idx, t. cbn [app length failures filter] in *.
    rewrite Nat.sub_0_r, Z.sub_0_r, !Nat.add_0_r. repeat split.
  - destruct fuel as [|fuel]; [cbn in Fu; lia|].
    cbn [app length Nat.sub watchLoop].
    erewrite bind_run by (apply call_reply, script_reply).
    cbn beta iota.
    destruct r as [event|err]; cbn [stops] in S.
    + unfold removes in S. rewrite S.
      edestruct (IH tail fuel (uint64_succ (etcd.EtcdIndex event)) retries)
        as (idx' & t' & L & Sl & Ca);
        [exact R | cbn in Fu; lia |].
      exists idx', t'. rewrite L. cbn [trace] in Sl, Ca.
      change (failures (inl event :: l)) with (failures l).
      repeat split.
      * rewrite Sl, sleeps_app. cbn. lia.
      * rewrite Ca.
        rewrite (calls_app (mkScript tail) (mkScript tail)).
        rewrite length_app. cbn. lia.
    + rewrite S.
      unfold failures in R |- *. cbn [filter fails] in R |- *.
      rewrite S in R |- *. cbn [negb length] in R |- *.
      fold (failures l) in R |- *.
      destruct (Z.eqb_spec (retries - 1) 0) as [Z0|_]; [lia|].
      unfold Sleep. erewrite bind_run by reflexivity.
      edestruct (IH tail fuel idx (retries - 1)%Z)
        as (idx' & t' & L & Sl & Ca);
        [lia | cbn in Fu; lia |].
      exists idx', t'. cbn [world trace] in *. rewrite L.
      replace (retries - 1 - Z.of_nat (failures l))%Z
        with (retries - Z.of_nat (Datatypes.S (failures l)))%Z by lia.
      repeat split.
      * rewrite Sl, !sleeps_app. cbn. lia.
      * rewrite Ca.
        rewrite (calls_app (mkScript tail) (mkScript tail)).
        rewrite (calls_app (mkScript tail) (mkScript tail)).
        rewrite !length_app. cbn. lia.
Qed.

(** X19: the key-removal watcher reads on through events that are not the
    removal of its key and through fewer than five failed watches, sleeping
    once per failure, and exits at the first reply that is the missing-key
    error or the deletion or expiry of its key; it has not exited before
    that reply. *)
Theorem watcher_stops_at_first_stop (key : string) (l : list Reply)
        (stop : Reply) (rest : list Reply) (fuel : nat) (idx : Z) :
  Forall (fun r => stops key r = false) l ->
  (failures l < 5)%nat ->
  stops key stop = true ->
  (length l < fuel)%nat ->
  let result :=
    run (watchForKeyRemoval fuel key idx) (mkScript (l ++ stop :: rest)) in
  fst result = true
  /\ replies (world (snd result)) = rest
  /\ length (calls (snd result)) = S (length l)
  /\ sleeps (trace (snd result)) = failures l
  /\ fst (run (watchForKeyRemoval (length l) key idx)
              (mkScript (l ++ stop :: rest))) = false.
Proof.
  intros F Fa St Fu result. subst result. unfold run, watchForKeyRemoval.
  destruct (@watchLoop_script key l F (stop :: rest) fuel idx
              EtcdWatchRetryMax [])
    as (idx' & t' & L & Sl & Ca); [unfold EtcdWatchRetryMax; lia | lia |].
  destruct (@watchLoop_script key l F (stop :: rest) (length l) idx
              EtcdWatchRetryMax [])
    as (idx'' & t'' & L' & _ & _); [unfold EtcdWatchRetryMax; lia | lia |].
  rewrite L, L'. rewrite Nat.sub_diag.
  destruct (fuel - length l)%nat as [|f] eqn:E; [lia|].
  cbn [watchLoop].
  erewrite bind_run by (apply call_reply, script_reply).
  cbn beta iota.
  assert (R : forall retries f',
             match stop with
             | inl response =>
                 if String.eqb (etcd.Key (etcd.RNode response)) key
                    && isRemoval (etcd.Action response)
                 then ret true
                 else watchLoop f' key
                        (uint64_succ (etcd.EtcdIndex response)) retries
             | inr err =>
                 if errorIsMissingKey err then ret true
                 else
                   let retries0 := (retries - 1)%Z in
                   if Z.eqb retries0 0 then ret true
                   else Sleep EtcdWatchRetryInterval ;;;
                        watchLoop f' key idx' retries0
             end = @ret Script bool true).
  { intros retries f'. destruct stop as [event|err]; cbn [stops] in St.
    - unfold removes in St. now rewrite St.
    - now rewrite St. }
  rewrite R. unfold ret. cbn [fst snd world replies trace].
  repeat split.
  - rewrite (calls_app (mkScript rest) (mkScript (stop :: rest))).
    rewrite length_app, Ca. cbn. lia.
  - rewrite sleeps_app, Sl. cbn. lia.
Qed.

(** X20: the retry counter of the watcher is never reset: the watcher
    exits on the fifth failed watch of its life, whatever events were
    delivered between the failures, after four pacing sleeps. *)
Theorem watcher_gives_up_at_fifth_failure (key : string) (l : list Reply)
        (err : error) (rest : list Reply) (fuel : nat) (idx : Z) :
  Forall (fun r => stops key r = false) l ->
  failures l = 4%nat ->
  errorIsMissingKey err = false ->
  (length l < fuel)%nat ->
  let result :=
    run (watchForKeyRemoval fuel key idx) (mkScript (l ++ inr err :: rest)) in
  fst result = true
  /\ replies (world (snd result)) = rest
  /\ length (calls (snd result)) = S (length l)
  /\ sleeps (trace (snd result)) = 4%nat.
Proof.
  intros F Fa M Fu result. subst result. unfold run, watchForKeyRemoval.
  destruct (@watchLoop_script key l F (inr err :: rest) fuel idx
              EtcdWatchRetryMax [])
    as (idx' & t' & L & Sl & Ca); [unfold EtcdWatchRetryMax; lia | lia |].
  rewrite L. rewrite Fa.
  destruct (fuel - length l)%nat as [|f] eqn:E; [lia|].
  cbn [watchLoop].
  erewrite bind_run by (apply call_reply, script_reply).
  cbn beta iota. rewrite M. cbv zeta.
  change (EtcdWatchRetryMax - Z.of_nat 4 - 1 =? 0)%Z with true.
  cbv iota. unfold ret. cbn [fst snd world replies trace].
  repeat split.
  - rewrite (calls_app (mkScript rest) (mkScript (inr err :: rest))).
    rewrite length_app, Ca. cbn. lia.
  - rewrite sleeps_app, Sl, Fa. reflexivity.
Qed.

(** ** Construction of the backend *)

Lemma HasPrefix_slash (p : string) :
  Strings.HasPrefix p "/" = Filepath.rooted p.
Proof.
  unfold Strings.HasPrefix. destruct p as [|c p]; [reflexivity|].
  cbn [String.prefix Filepath.rooted].
  destruct (ascii_dec "/" c) as [<-|N].
  - now destruct p.
  - symmetry. apply Ascii.eqb_neq. congruence.
Qed.

(** X10: [newEtcdBackend] returns either a backend and no error, or no
    backend and [EtcdSyncClusterError]; the path of a backend it returns
    starts with a separator: it is the configured path (["/vault"] without
    one), with a separator put in front when it did not start with one. *)
Theorem newEtcdBackend_path (conf : list (string * string))
        (SyncCluster : list string -> bool) :
  let configured :=
    match confGet conf "path" with Some p => p | None => "/vault" end in
  let r := newEtcdBackend conf SyncCluster in
  (forall b, fst r = Some b ->
     snd r = None
     /\ Filepath.rooted (path b) = true
     /\ path b = if Filepath.rooted configured then configured
                 else "/" ++ configured)
  /\ (fst r = None -> snd r = Some EtcdSyncClusterError).
Proof.
  intros configured r. subst r. unfold newEtcdBackend.
  fold configured. rewrite HasPrefix_slash.
  destruct (SyncCluster _); cbn [negb fst snd]; split; try discriminate.
  - intros b [= <-]. cbn [path].
    destruct (Filepath.rooted configured) eqn:R; cbn [negb]; auto.
  - reflexivity.
Qed.

Ltac differ := let E := fresh "E" in intro E; vm_compute in E; discriminate E.

(** ** The further properties on concrete runs *)

Section MoreRuns.

Import Demo Scenario.

Lemma newEtcdBackend_path_witness :
  let r := newEtcdBackend [("path", "secret")] (fun _ => true) in
  fst r = Some (mkEtcdBackend "/secret")
  /\ snd r = None
  /\ Filepath.rooted "/secret" = true.
Proof.
  cbv zeta. split; [reflexivity|].
  destruct (proj1 (newEtcdBackend_path [("path", "secret")] (fun _ => true))
                  (mkEtcdBackend "/secret") eq_refl) as (E & R & _).
  split; [exact E | exact R].
Defined.

Lemma nodePath_in_dir_witness :
  Filepath.rooted (path vault) = true
  /\ Filepath.Base "a/b" <> "." /\ Filepath.Base "a/b" <> "/"
  /\ Filepath.Join [path vault; Filepath.Dir "a/b"] <> "/"
  /\ nodePath vault "a/b" =
     nodePathDir vault (Filepath.Dir "a/b")
     ++ EtcdNodeFilePrefix ++ Filepath.Base "a/b".
Proof.
  assert (H1 : Filepath.Base "a/b" <> ".") by differ.
  assert (H2 : Filepath.Base "a/b" <> "/") by differ.
  assert (H3 : Filepath.Join [path vault; Filepath.Dir "a/b"] <> "/")
    by differ.
  repeat (split; [first [reflexivity | assumption]|]).
  apply (@nodePath_in_dir vault "a/b" eq_refl H1 H2 H3).
Defined.

Lemma nodePathLock_in_dir_witness :
  Filepath.rooted (path vault) = true
  /\ Filepath.Base "a/x" <> "/"
  /\ Filepath.Join [path vault; Filepath.Dir "a/x"] <> "/"
  /\ nodePathLock vault "a/x" =
     nodePathDir vault (Filepath.Dir "a/x")
     ++ EtcdNodeLockPrefix ++ Filepath.Base "a/x".
Proof.
  assert (H2 : Filepath.Base "a/x" <> "/") by differ.
  assert (H3 : Filepath.Join [path vault; Filepath.Dir "a/x"] <> "/")
    by differ.
  repeat (split; [first [reflexivity | assumption]|]).
  apply (@nodePathLock_in_dir vault "a/x" eq_refl H2 H3).
Defined.

Lemma value_and_lock_paths_differ_witness :
  Filepath.Base "a/b" <> "." /\ Filepath.Base "a/b" <> "/"
  /\ nodePath vault "a/b" <> nodePathLock vault "a/b".
Proof.
  assert (H1 : Filepath.Base "a/b" <> ".") by differ.
  assert (H2 : Filepath.Base "a/b" <> "/") by differ.
  repeat (split; [assumption|]).
  apply (@value_and_lock_paths_differ vault "a/b" "a/b" H1 H2).
Defined.

Lemma nodePathDir_trailing_slash_witness :
  path vault <> "" /\ nodePathDir vault ("a" ++ "/") = nodePathDir vault "a".
Proof.
  assert (H1 : path vault <> "") by differ.
  split; [exact H1|].
  apply (@nodePathDir_trailing_slash vault "a" H1).
Defined.

Lemma Delete_errors_witness :
  let s := mkState (mkScript [inr (EtcdError 100 "Key not found")]) [] in
  perform (CallDelete (nodePath vault "nope") false) (world s)
  = (inr (EtcdError 100 "Key not found"), mkScript [])
  /\ fst (Delete vault "nope" s) = None.
Proof.
  cbv zeta. split; [reflexivity|].
  apply (proj1 (@Delete_errors Script _ vault "nope"
                  (mkState (mkScript [inr (EtcdError 100 "Key not found")])
                           [])
                  (inr (EtcdError 100 "Key not found")) (mkScript [])
                  eq_refl)).
  right. now exists "Key not found".
Defined.

Lemma List_shows_put_key_witness :
  let s := mkState (mkScript [inl listing]) [] in
  let node := etcd.mkNode "/vault/.bar" "YQ==" false [] in
  Filepath.rooted (path vault) = true
  /\ Filepath.Base "bar" <> "." /\ Filepath.Base "bar" <> "/"
  /\ Filepath.Join [path vault; Filepath.Dir "bar"] <> "/"
  /\ perform (CallGet (nodePathDir vault (Filepath.Dir "bar")) true false)
             (world s) = (inl listing, mkScript [])
  /\ nth_error (etcd.Nodes (etcd.RNode listing)) 0 = Some node
  /\ etcd.Key node = nodePath vault "bar"
  /\ exists out,
       fst (List vault (Filepath.Dir "bar") s) = Return (Some out, None)
       /\ nth_error out 0 = Some (Filepath.Base "bar").
Proof.
  cbv zeta.
  assert (H1 : Filepath.Base "bar" <> ".") by differ.
  assert (H2 : Filepath.Base "bar" <> "/") by differ.
  assert (H3 : Filepath.Join [path vault; Filepath.Dir "bar"] <> "/")
    by differ.
  do 7 (split; [first [reflexivity | assumption]|]).
  apply (@List_shows_put_key Script _ vault "bar"
           (mkState (mkScript [inl listing]) []) listing (mkScript []) 0
           (etcd.mkNode "/vault/.bar" "YQ==" false []) eq_refl H1 H2 H3
           eq_refl);
    try reflexivity.
  repeat constructor;
    [exists ".bar" | exists "dir" | exists "foo"]; split;
    first [reflexivity | discriminate].
Defined.

Lemma List_at_root_witness :
  let s := mkState (mkScript [inl rootListing]) [] in
  Filepath.Join [path rootBackend; ""] = "/"
  /\ perform (CallGet "//" true false) (world s)
     = (inl rootListing, mkScript [])
  /\ fst (List rootBackend "" s) = Return (Some [".foo"; "/dir/"], None).
Proof.
  cbv zeta. do 2 (split; [reflexivity|]).
  apply (@List_at_root Script _ rootBackend ""
           (mkState (mkScript [inl rootListing]) []) rootListing
           (mkScript []) [".foo"; "dir"] eq_refl eq_refl).
  repeat constructor.
Defined.

Lemma Lock_fresh_acquires_witness :
  let s := mkState (mkScript [inl created1; inl oneHolder]) [] in
  perform (CallCreateInOrder (nodePathLock vault "foo") "me" 15) (world s)
  = (inl created1, mkScript [inl oneHolder])
  /\ perform (CallGet (nodePathLock vault "foo") true false)
             (mkScript [inl oneHolder]) = (inl oneHolder, mkScript [])
  /\ headKey oneHolder = etcd.Key (etcd.RNode created1)
  /\ Lock 0 waiter s =
     ((Some (Some (mkLostChannel entry1 8), None), holder),
      mkState (mkScript [])
        [Called (CallCreateInOrder queue "me" 15);
         Called (CallGet queue true false)]).
Proof.
  cbv zeta. do 3 (split; [reflexivity|]).
  apply (@Lock_fresh_acquires Script _ 0 vault "foo" "me"
           (mkState (mkScript [inl created1; inl oneHolder]) [])
           created1 (mkScript [inl oneHolder]) oneHolder (mkScript [])
           eq_refl eq_refl eq_refl).
Defined.

Lemma Lock_create_error_witness :
  let s := mkState (mkScript [inr raftError]) [] in
  assertNotHeld waiter s = (None, s)
  /\ perform (CallCreateInOrder (semaphoreDirKey waiter) (value waiter)
                                EtcdLockTTL) (world s)
     = (inr raftError, mkScript [])
  /\ Lock 3 waiter s =
     ((Some (None, Some raftError), waiter),
      mkState (mkScript []) [Called (CallCreateInOrder queue "me" 15)]).
Proof.
  cbv zeta. do 2 (split; [reflexivity|]).
  apply (@Lock_create_error Script _ 3 waiter
           (mkState (mkScript [inr raftError]) [])
           (mkState (mkScript [inr raftError]) [])
           raftError (mkScript []) eq_refl eq_refl).
Defined.


Lemma Unlock_not_held_witness :
  let s := mkState (mkScript [inl twoWaiters]) [] in
  semaphoreKey second <> ""
  /\ headKey twoWaiters <> semaphoreKey second
  /\ Unlock second s =
     (Some EtcdLockNotHeldError,
      mkState (mkScript []) [Called (CallGet queue true false)]).
Proof.
  cbv zeta.
  assert (N1 : semaphoreKey second <> "") by differ.
  assert (N2 : headKey twoWaiters <> semaphoreKey second) by differ.
  do 2 (split; [assumption|]).
  apply (proj1 (proj2 (@Unlock_not_held Script _ second
                         (mkState (mkScript [inl twoWaiters]) [])))
               twoWaiters (mkScript []) N1 eq_refl N2).
Defined.

Lemma LockValue_reports_head_witness :
  let s := mkState (mkScript [inl oneHolder]) [] in
  perform (CallGet (semaphoreDirKey second) true false) (world s)
  = (inl oneHolder, mkScript [])
  /\ fst (LockValue second s) = (true, "me", None).
Proof.
  cbv zeta. split; [reflexivity|].
  apply (proj1 (@LockValue_reports_head Script _ second second
                  (mkState (mkScript [inl oneHolder]) [])
                  (inl oneHolder) (mkScript []) eq_refl)
               oneHolder eq_refl).
Defined.

Lemma Lock_then_Unlock_witness :
  let s := mkState (mkScript [inl created1; inl oneHolder; inl oneHolder;
                              inl (deleted entry1)]) [] in
  headKey oneHolder = etcd.Key (etcd.RNode created1)
  /\ etcd.Key (etcd.RNode created1) <> ""
  /\ (c' <- (r <- Lock 0 waiter ;; ret (snd r)) ;; Unlock c') s =
     (None,
      mkState (mkScript [])
        [Called (CallCreateInOrder queue "me" 15);
         Called (CallGet queue true false);
         Called (CallGet queue true false);
         Called (CallDelete entry1 false)]).
Proof.
  cbv zeta.
  assert (N : etcd.Key (etcd.RNode created1) <> "") by differ.
  do 2 (split; [first [reflexivity | exact N]|]).
  apply (@Lock_then_Unlock Script _ 0 vault "foo" "me"
           (mkState (mkScript [inl created1; inl oneHolder; inl oneHolder;
                               inl (deleted entry1)]) [])
           created1 (mkScript [inl oneHolder; inl oneHolder;
                               inl (deleted entry1)])
           oneHolder (mkScript [inl oneHolder; inl (deleted entry1)])
           oneHolder (mkScript [inl (deleted entry1)])
           (inl (deleted entry1)) (mkScript [])
           eq_refl eq_refl eq_refl N eq_refl eq_refl eq_refl).
Defined.

Lemma watcher_stops_at_first_stop_witness :
  let l := [inr raftError; inl thirdJoins] in
  let result :=
    run (watchForKeyRemoval 5 entry1 8)
        (mkScript (l ++ inl headGone :: [inr raftError])) in
  Forall (fun r => stops entry1 r = false) l
  /\ (failures l < 5)%nat
  /\ stops entry1 (inl headGone) = true
  /\ fst result = true
  /\ replies (world (snd result)) = [inr raftError]
  /\ length (calls (snd result)) = 3%nat
  /\ sleeps (trace (snd result)) = 1%nat.
Proof.
  cbv zeta.
  assert (F : Forall (fun r => stops entry1 r = false)
                     [inr raftError; inl thirdJoins])
    by (repeat constructor).
  assert (L : (failures [inr raftError; inl thirdJoins] < 5)%nat)
    by (cbn; lia).
  do 3 (split; [first [reflexivity | assumption]|]).
  destruct (@watcher_stops_at_first_stop entry1
              [inr raftError; inl thirdJoins] (inl headGone)
              [inr raftError] 5 8 F L eq_refl ltac:(cbn; lia))
    as (R1 & R2 & R3 & R4 & _).
  repeat split; assumption.
Defined.

Lemma watcher_gives_up_at_fifth_failure_witness :
  let l := [inr raftError; inl thirdJoins; inr raftError; inr raftError;
            inl thirdJoins; inr raftError] in
  let result :=
    run (watchForKeyRemoval 9 entry1 8)
        (mkScript (l ++ inr raftError :: [inl headGone])) in
  Forall (fun r => stops entry1 r = false) l
  /\ failures l = 4%nat
  /\ errorIsMissingKey raftError = false
  /\ fst result = true
  /\ replies (world (snd result)) = [inl headGone]
  /\ length (calls (snd result)) = 7%nat
  /\ sleeps (trace (snd result)) = 4%nat.
Proof.
  cbv zeta.
  assert (F : Forall (fun r => stops entry1 r = false)
                     [inr raftError; inl thirdJoins; inr raftError;
                      inr raftError; inl thirdJoins; inr raftError])
    by (repeat constructor).
  do 3 (split; [first [reflexivity | assumption]|]).
  apply (@watcher_gives_up_at_fifth_failure entry1
           [inr raftError; inl thirdJoins; inr raftError; inr raftError;
            inl thirdJoins; inr raftError] raftError [inl headGone] 9 8
           F eq_refl eq_refl ltac:(cbn; lia)).
Defined.

(** C7: on a backend at the root of the store, which [newEtcdBackend]
    builds for the path ["/"], the directory path of [List] is ["//"] and
    no child key starts with it: the file child ["/.foo"] is returned as
    [".foo"], its leaf prefix still on, and the directory child ["/dir"] as
    ["/dir/"], the directory path not trimmed. *)
Theorem List_root_children_untrimmed :
  fst (newEtcdBackend [("path", "/")] (fun _ => true)) = Some rootBackend
  /\ nodePathDir rootBackend "" = "//"
  /\ map etcd.Key (etcd.Nodes (etcd.RNode rootListing)) = ["/.foo"; "/dir"]
  /\ fst (run (List rootBackend "") (mkScript [inl rootListing]))
     = Return (Some [".foo"; "/dir/"], None).
Proof. repeat split. Qed.

(** C10: on the same backend a file child that this backend did not
    write, ["/xfoo"], is returned whole as ["xfoo"]: the character that
    [List] removes is the separator before the name, not the first
    character of the name. *)
Theorem List_root_foreign_key_whole :
  nodePathDir rootBackend "" = "//"
  /\ map etcd.Key (etcd.Nodes (etcd.RNode rootForeign)) = ["/xfoo"]
  /\ fst (run (List rootBackend "") (mkScript [inl rootForeign]))
     = Return (Some ["xfoo"], None).
Proof. repeat split. Qed.

Lemma Lock_cancelled_returns_delete_error_witness :
  let s := mkState cancelledLater [] in
  let w' := mkScript [inr ErrWatchStoppedByUser; inl (deleted entry2)] in
  let cs := [CallWatch queue 8 true true; CallGet queue true false] in
  assertNotHeld waiter s = (None, s)
  /\ headKey twoWaiters <> etcd.Key (etcd.RNode created2)
  /\ waitsThrough (semaphoreDirKey waiter) (etcd.Key (etcd.RNode created2)) 1
       (etcd.EtcdIndex twoWaiters)
       (mkScript [inl thirdJoins; inl twoWaiters;
                  inr ErrWatchStoppedByUser; inl (deleted entry2)])
       cs 7 w'
  /\ perform (CallWatch (semaphoreDirKey waiter) (uint64_succ 7) true true) w'
     = (inr ErrWatchStoppedByUser, mkScript [inl (deleted entry2)])
  /\ isEtcdError ErrWatchStoppedByUser = false
  /\ perform (CallDelete entry2 false) (mkScript [inl (deleted entry2)])
     = (inl (deleted entry2), mkScript [])
  /\ Lock 2 waiter s =
     ((Some (None, None), second),
      mkState (mkScript [])
        [Called (CallCreateInOrder queue "me" 15);
         Called (CallGet queue true false);
         Called (CallWatch queue 8 true true);
         Called (CallGet queue true false);
         Called (CallWatch queue 8 true true);
         Called (CallDelete entry2 false)]).
Proof.
  cbv zeta.
  assert (N : headKey twoWaiters <> etcd.Key (etcd.RNode created2))
    by differ.
  assert (Wa : waitsThrough (semaphoreDirKey waiter)
                 (etcd.Key (etcd.RNode created2)) 1
                 (etcd.EtcdIndex twoWaiters)
                 (mkScript [inl thirdJoins; inl twoWaiters;
                            inr ErrWatchStoppedByUser; inl (deleted entry2)])
                 [CallWatch queue 8 true true; CallGet queue true false] 7
                 (mkScript [inr ErrWatchStoppedByUser;
                            inl (deleted entry2)])).
  { apply (@waits_round Script _ queue entry2 0 7
             (mkScript [inl thirdJoins; inl twoWaiters;
                        inr ErrWatchStoppedByUser; inl (deleted entry2)])
             thirdJoins
             (mkScript [inl twoWaiters; inr ErrWatchStoppedByUser;
                        inl (deleted entry2)])
             twoWaiters
             (mkScript [inr ErrWatchStoppedByUser; inl (deleted entry2)])
             [] 7
             (mkScript [inr ErrWatchStoppedByUser; inl (deleted entry2)])
             eq_refl eq_refl eq_refl N).
    apply waits_done. }
  do 6 (split; [first [reflexivity | assumption]|]).
  apply (@Lock_cancelled_returns_delete_error Script _ 0 1 waiter
           (mkState cancelledLater []) (mkState cancelledLater [])
           created2
           (mkScript [inl twoWaiters; inl thirdJoins; inl twoWaiters;
                      inr ErrWatchStoppedByUser; inl (deleted entry2)])
           twoWaiters
           (mkScript [inl thirdJoins; inl twoWaiters;
                      inr ErrWatchStoppedByUser; inl (deleted entry2)])
           [CallWatch queue 8 true true; CallGet queue true false] 7
           (mkScript [inr ErrWatchStoppedByUser; inl (deleted entry2)])
           ErrWatchStoppedByUser (mkScript [inl (deleted entry2)])
           (inl (deleted entry2)) (mkScript [])
           eq_refl eq_refl eq_refl N Wa eq_refl eq_refl eq_refl).
Defined.

Lemma Lock_store_error_leaves_entry_witness :
  let s := mkState failedLater [] in
  let w' := mkScript [inr raftError] in
  let cs := [CallWatch queue 8 true true; CallGet queue true false] in
  assertNotHeld waiter s = (None, s)
  /\ headKey twoWaiters <> etcd.Key (etcd.RNode created2)
  /\ waitsThrough (semaphoreDirKey waiter) (etcd.Key (etcd.RNode created2)) 1
       (etcd.EtcdIndex twoWaiters)
       (mkScript [inl thirdJoins; inl twoWaiters; inr raftError]) cs 7 w'
  /\ isEtcdError raftError = true
  /\ Lock 2 waiter s =
     ((Some (None, Some raftError), second),
      mkState (mkScript [])
        [Called (CallCreateInOrder queue "me" 15);
         Called (CallGet queue true false);
         Called (CallWatch queue 8 true true);
         Called (CallGet queue true false);
         Called (CallWatch queue 8 true true)]).
Proof.
  cbv zeta.
  assert (N : headKey twoWaiters <> etcd.Key (etcd.RNode created2))
    by differ.
  assert (Wa : waitsThrough (semaphoreDirKey waiter)
                 (etcd.Key (etcd.RNode created2)) 1
                 (etcd.EtcdIndex twoWaiters)
                 (mkScript [inl thirdJoins; inl twoWaiters; inr raftError])
                 [CallWatch queue 8 true true; CallGet queue true false] 7
                 (mkScript [inr raftError])).
  { apply (@waits_round Script _ queue entry2 0 7
             (mkScript [inl thirdJoins; inl twoWaiters; inr raftError])
             thirdJoins (mkScript [inl twoWaiters; inr raftError])
             twoWaiters (mkScript [inr raftError]) [] 7
             (mkScript [inr raftError]) eq_refl eq_refl eq_refl N).
    apply waits_done. }
  do 4 (split; [first [reflexivity | assumption]|]).
  apply (@Lock_store_error_leaves_entry Script _ 0 1 waiter
           (mkState failedLater []) (mkState failedLater [])
           created2
           (mkScript [inl twoWaiters; inl thirdJoins; inl twoWaiters;
                      inr raftError])
           twoWaiters
           (mkScript [inl thirdJoins; inl twoWaiters; inr raftError])
           [CallWatch queue 8 true true; CallGet queue true false] 7
           (mkScript [inr raftError]) raftError (mkScript [])
           eq_refl eq_refl eq_refl N Wa eq_refl eq_refl).
Defined.

Lemma Lock_entry_removed_witness :
  let s := mkState expiredLater [] in
  let w' := mkScript [inl oursExpired] in
  let cs := [CallWatch queue 8 true true; CallGet queue true false] in
  assertNotHeld waiter s = (None, s)
  /\ headKey twoWaiters <> etcd.Key (etcd.RNode created2)
  /\ waitsThrough (semaphoreDirKey waiter) (etcd.Key (etcd.RNode created2)) 1
       (etcd.EtcdIndex twoWaiters)
       (mkScript [inl thirdJoins; inl twoWaiters; inl oursExpired]) cs 7 w'
  /\ etcd.Key (etcd.RNode oursExpired) = etcd.Key (etcd.RNode created2)
  /\ etcd.Action oursExpired = "expire"
  /\ Lock 2 waiter s =
     ((Some (None, Some EtcdSemaphoreKeyRemovedError), second),
      mkState (mkScript [])
        [Called (CallCreateInOrder queue "me" 15);
         Called (CallGet queue true false);
         Called (CallWatch queue 8 true true);
         Called (CallGet queue true false);
         Called (CallWatch queue 8 true true)]).
Proof.
  cbv zeta.
  assert (N : headKey twoWaiters <> etcd.Key (etcd.RNode created2))
    by differ.
  assert (Wa : waitsThrough (semaphoreDirKey waiter)
                 (etcd.Key (etcd.RNode created2)) 1
                 (etcd.EtcdIndex twoWaiters)
                 (mkScript [inl thirdJoins; inl twoWaiters; inl oursExpired])
                 [CallWatch queue 8 true true; CallGet queue true false] 7
                 (mkScript [inl oursExpired])).
  { apply (@waits_round Script _ queue entry2 0 7
             (mkScript [inl thirdJoins; inl twoWaiters; inl oursExpired])
             thirdJoins (mkScript [inl twoWaiters; inl oursExpired])
             twoWaiters (mkScript [inl oursExpired]) [] 7
             (mkScript [inl oursExpired]) eq_refl eq_refl eq_refl N).
    apply waits_done. }
  do 5 (split; [first [reflexivity | assumption]|]).
  apply (@Lock_entry_removed Script _ 0 1 waiter
           (mkState expiredLater []) (mkState expiredLater [])
           created2
           (mkScript [inl twoWaiters; inl thirdJoins; inl twoWaiters;
                      inl oursExpired])
           twoWaiters
           (mkScript [inl thirdJoins; inl twoWaiters; inl oursExpired])
           [CallWatch queue 8 true true; CallGet queue true false] 7
           (mkScript [inl oursExpired]) oursExpired (mkScript [])
           eq_refl eq_refl eq_refl N Wa eq_refl eq_refl
           (or_intror eq_refl)).
Defined.

End MoreRuns.
